(** * python-sftp: the transfer routine and the history store of [fs2.py]

    A shallow embedding of [FileSharingApp] (src/fs2.py): the history
    store ([load_history], [save_history], [add_to_history],
    [delete_selected_history], [clear_history]), the progress update
    ([update_progress]) and the transfer routine ([upload_file],
    [download_file], [_transfer_file]).

    The application object and the world it acts on (the history file, the
    local file system, the network connections) are an explicit state;
    every answer the outside world gives (the server, the dialogs, the
    clock) is read from an environment record, and what writing the
    history file does and how the tree hands its cells back are part of
    the world.  Python exceptions are the
    [Raise] results of a small monad that threads the state and collects
    the trace of what a run does: the dialogs it shows, the calls it makes
    on the session, the callbacks it hands to the Tk main loop and the
    records it appends to the history.  A background thread is run to its
    end where it is started. *)

From Stdlib Require Import ZArith QArith Lia Ascii String.
From stdpp Require Import base option list strings pretty.

Local Open Scope Z_scope.
Local Open Scope string_scope.
Local Open Scope list_scope.

(** ** Python values used by the program *)

(** The exceptions the modelled calls can raise. *)
Inductive exn :=
| ZeroDivisionError
| AttributeError (name : string)
| OSError (path : string)
| SSHException (msg : string)
| AuthenticationException
| FileNotFoundError (path : string)
| IOError (msg : string)
| PermissionError
| JSONDecodeError
| TclError.

(** Truth value of a Python string: [not s] holds exactly for the empty one. *)
Definition truthy (s : string) : bool :=
  match s with EmptyString => false | String _ _ => true end.

(** [all([...])] over strings. *)
Definition all (l : list string) : bool := forallb truthy l.

(** [os.path.basename] (POSIX): what follows the last slash. *)
Fixpoint basename_from (acc p : string) : string :=
  match p with
  | EmptyString => acc
  | String c r =>
      if Ascii.eqb c "/"%char then basename_from "" r
      else basename_from (acc +:+ String c "") r
  end.

Definition basename (p : string) : string := basename_from "" p.

(** ** The history log *)

(** One history record: the dict built in [add_to_history]. *)
Record entry := Entry {
  date : string;      (* "%Y-%m-%d %H:%M" *)
  type : string;      (* "upload" | "download" *)
  file : string;
  status : string     (* "success" | "failed" *)
}.

(** A row of the history tree view: the four strings that
    [update_history_display] puts there. *)
Record row := Row {
  row_date : string;
  row_type : string;
  row_file : string;
  row_status : string
}.

(** JSON documents, as [json.load] returns them. *)
#[warnings="-register-all"]
Inductive json :=
| JNull
| JBool (b : bool)
| JNum (n : Z)
| JStr (s : string)
| JArr (l : list json)
| JObj (l : list (string * json)).

Definition json_of_entry (e : entry) : json :=
  JObj [("date", JStr (date e)); ("type", JStr (type e));
        ("file", JStr (file e)); ("status", JStr (status e))].

(** What [json.dump(self.transfer_history, ...)] serialises. *)
Definition json_of_history (h : list entry) : json :=
  JArr (map json_of_entry h).

(** A loaded dict as a record: the dict [add_to_history] builds, with
    its four string values in the order of lines 329-332.  Any other
    document has no counterpart among the records. *)
Definition entry_of_json (j : json) : option entry :=
  match j with
  | JObj [(k1, JStr d); (k2, JStr t); (k3, JStr f); (k4, JStr s)] =>
      if String.eqb k1 "date" && String.eqb k2 "type"
         && String.eqb k3 "file" && String.eqb k4 "status"
      then Some (Entry d t f s) else None
  | _ => None
  end.

(** A loaded document as a log: a list of such dicts. *)
Definition history_of_json (j : json) : option (list entry) :=
  match j with
  | JArr l => mapM entry_of_json l
  | _ => None
  end.

(** The state of [transfer_history.json] on disk.  [json.dump] and
    [json.load] are the standard library's codec: a file written by
    [json.dump v] is one that [json.load] reads back as [v]. *)
Inductive history_file_state :=
| Absent                      (* os.path.exists is False *)
| Unreadable                  (* exists, open() raises *)
| Corrupt (raw : string)      (* readable, json.load raises *)
| Holds (doc : json).         (* readable text of the document [doc] *)

(** What opening the history file for writing and dumping the log does
    (lines 315-316). *)
Inductive write_result :=
| WriteOk                     (* the file holds the dumped text *)
| OpenRaises (e : exn)        (* open(..., "w") raises: read-only file,
                                 directory; the file is as it was *)
| DumpRaises (e : exn) (raw : string).
                              (* the file is opened and emptied, the dump
                                 raises and leaves the part [raw] *)

(** A cell of the tree as [item(id)["values"]] hands it back: ttk turns
    a cell whose text reads as an integer into that integer. *)
Inductive cell :=
| CStr (s : string)
| CInt (n : Z).

(** The four values of a row that was read back. *)
Record values := Values {
  v_date : cell;
  v_type : cell;
  v_file : cell;
  v_status : cell
}.

(** ** The application object and its world *)

(** What [root.after(0, ...)] hands to the Tk main loop. *)
Inductive tk_callback :=
| CbProgress (transferred total : Z)        (* self.update_progress *)
| CbStatus (text foreground : string).      (* self.status_label.config *)

(** What a run does to the outside world, in program order. *)
Inductive event :=
| MsgError (text : string)                  (* messagebox.showerror *)
| MsgTransferError (action : string) (e : exn)
| MsgInfo (text : string)                   (* messagebox.showinfo *)
| MsgWarning (text : string)                (* messagebox.showwarning *)
| AskYesNo (title : string) (answer : bool) (* messagebox.askyesno *)
| AskSaveAs (initialfile answer : string)   (* filedialog.asksaveasfilename *)
| TransportNew (server : string) (port : Z) (* paramiko.Transport *)
| TransportConnect (username password : string)
| SftpFromTransport
| GetSize (path : string)                   (* os.path.getsize *)
| SftpStat (remote : string)
| SftpPut (local remote : string)
| SftpGet (remote local : string)
| Chunk (n : Z)                             (* n bytes written *)
| After (cb : tk_callback)                    (* root.after(0, cb) *)
| HistoryAppend (e : entry)
| HistoryFlush (h : list entry)             (* save_history *)
| SftpClose
| TransportClose.

(** The text of the progress label.  The f-string of [update_progress]
    is kept as its three arguments. *)
Inductive label :=
| Plain (text : string)
| Percent (percentage : Q) (transferred total : Z).

(** The fields of [self] the modelled methods read or write. *)
Record Self := {
  server_entry : string;
  username_entry : string;
  password_entry : string;
  remote_file_entry : string;
  file_path : option string;                (* None: attribute not set *)
  transfer_history : list entry;
  history_tree : list row;
  progress_bar : Q;
  progress_label : label;
  status_label : string * string            (* text, foreground *)
}.

(** The world outside the object.  The two counts are of the transport
    and channel objects that the program has created and has not closed;
    a link that is cut under them does not change the counts. *)
Record World := {
  disk : history_file_state;                (* transfer_history.json *)
  disk_write : write_result;                (* what writing that file does *)
  cell_as_int : string -> option Z;         (* the integer ttk reads a cell
                                               as, if it reads as one *)
  local_files : list string;                (* files created by downloads *)
  open_transports : nat;                    (* transports not yet closed *)
  open_channels : nat                       (* SFTP channels not yet closed *)
}.

Record State := { self : Self; world : World }.

(** What the outside world answers during one attempt. *)
Record Env := {
  now : string;                             (* datetime.now().strftime *)
  net_transport : option exn;               (* Transport((server, 22)) raises *)
  net_auth : option exn;                    (* transport.connect raises *)
  net_sftp : option exn;                    (* from_transport raises *)
  local_size : string -> option Z;          (* size of a local file *)
  remote_size : string -> option Z;         (* size of a remote file *)
  save_dialog : string;                     (* answer of the save dialog *)
  chunk_size : positive;                    (* bytes per chunk write *)
  link_drop : option nat                    (* the link breaks after this
                                               many chunk writes *)
}.

(** ** A state, exception and trace monad *)

Inductive result (A : Type) :=
| Ok (a : A)
| Raise (e : exn).
Arguments Ok {A} a.
Arguments Raise {A} e.

(** A computation takes the state to a result, the state it leaves and
    the events it caused, in program order. *)
Definition M (A : Type) : Type := State -> result A * State * list event.

Definition result_of {A} (x : result A * State * list event) : result A :=
  fst (fst x).
Definition final {A} (x : result A * State * list event) : State :=
  snd (fst x).
Definition events {A} (x : result A * State * list event) : list event :=
  snd x.

#[export] Instance M_ret : MRet M := fun A a st => (Ok a, st, []).

#[export] Instance M_bind : MBind M := fun A B f m st =>
  match m st with
  | (Ok a, st', tr) =>
      match f a st' with
      | (r, st'', tr') => (r, st'', tr ++ tr')
      end
  | (Raise e, st', tr) => (Raise e, st', tr)
  end.

Definition raise {A} (e : exn) : M A := fun st => (Raise e, st, []).

(** [try: body except Exception as e: handler e]. *)
Definition try_except {A} (body : M A) (handler : exn -> M A) : M A :=
  fun st =>
    match body st with
    | (Ok a, st', tr) => (Ok a, st', tr)
    | (Raise e, st', tr) =>
        match handler e st' with
        | (r, st'', tr') => (r, st'', tr ++ tr')
        end
    end.

Definition gets {A} (f : Self -> A) : M A :=
  fun st => (Ok (f (self st)), st, []).

Definition on_self (f : Self -> Self) : M unit :=
  fun st => (Ok tt, {| self := f (self st); world := world st |}, []).

Definition on_world (f : World -> World) : M unit :=
  fun st => (Ok tt, {| self := self st; world := f (world st) |}, []).

Definition emit (e : event) : M unit := fun st => (Ok tt, st, [e]).

(** Field updates of [self]. *)
Definition set_transfer_history (h : list entry) (s : Self) : Self :=
  {| server_entry := server_entry s; username_entry := username_entry s;
     password_entry := password_entry s;
     remote_file_entry := remote_file_entry s; file_path := file_path s;
     transfer_history := h; history_tree := history_tree s;
     progress_bar := progress_bar s; progress_label := progress_label s;
     status_label := status_label s |}.

Definition set_history_tree (t : list row) (s : Self) : Self :=
  {| server_entry := server_entry s; username_entry := username_entry s;
     password_entry := password_entry s;
     remote_file_entry := remote_file_entry s; file_path := file_path s;
     transfer_history := transfer_history s; history_tree := t;
     progress_bar := progress_bar s; progress_label := progress_label s;
     status_label := status_label s |}.

Definition set_progress (v : Q) (text : label) (s : Self) : Self :=
  {| server_entry := server_entry s; username_entry := username_entry s;
     password_entry := password_entry s;
     remote_file_entry := remote_file_entry s; file_path := file_path s;
     transfer_history := transfer_history s; history_tree := history_tree s;
     progress_bar := v; progress_label := text;
     status_label := status_label s |}.

Definition set_status_label (text fg : string) (s : Self) : Self :=
  {| server_entry := server_entry s; username_entry := username_entry s;
     password_entry := password_entry s;
     remote_file_entry := remote_file_entry s; file_path := file_path s;
     transfer_history := transfer_history s; history_tree := history_tree s;
     progress_bar := progress_bar s; progress_label := progress_label s;
     status_label := (text, fg) |}.

(** Field updates of the world. *)
Definition set_disk (d : history_file_state) (w : World) : World :=
  {| disk := d; disk_write := disk_write w; cell_as_int := cell_as_int w;
     local_files := local_files w;
     open_transports := open_transports w;
     open_channels := open_channels w |}.

Definition add_local_file (p : string) (w : World) : World :=
  {| disk := disk w; disk_write := disk_write w;
     cell_as_int := cell_as_int w;
     local_files := local_files w ++ [p];
     open_transports := open_transports w;
     open_channels := open_channels w |}.

Definition set_connections (t c : nat) (w : World) : World :=
  {| disk := disk w; disk_write := disk_write w;
     cell_as_int := cell_as_int w;
     local_files := local_files w;
     open_transports := t; open_channels := c |}.

Definition getw {A} (f : World -> A) : M A :=
  fun st => (Ok (f (world st)), st, []).

(** [threading.Thread(target=...).start()], run to its end: what the
    thread raises stays in the thread. *)
Definition thread_start (target : M unit) : M unit :=
  fun st => (Ok tt, final (target st), events (target st)).

(** ** History store *)

(** [load_history] (lines 294-308). *)
Definition load_history : M json :=
  try_except
    (d ← getw disk;
     match d with
     | Absent => mret (JArr [])
     | Unreadable => raise PermissionError
     | Corrupt _ => raise JSONDecodeError
     | Holds doc => mret doc
     end)
    (fun _ => mret (JArr [])).

(** What a file that was written reads as afterwards: a file that
    cannot be opened for reading stays so. *)
Definition after_write (old new : history_file_state) : history_file_state :=
  match old with
  | Unreadable => Unreadable
  | _ => new
  end.

(** [save_history] (lines 310-316).  The file is rewritten with the log
    in memory.  Nothing here catches a failure of [open] or of the dump:
    the exception goes to the caller. *)
Definition save_history : M unit :=
  h ← gets transfer_history;
  w ← getw disk_write;
  match w with
  | WriteOk =>
      on_world (fun w =>
        set_disk (after_write (disk w) (Holds (json_of_history h))) w);;
      emit (HistoryFlush h)
  | OpenRaises e => raise e
  | DumpRaises e raw =>
      on_world (fun w => set_disk (after_write (disk w) (Corrupt raw)) w);;
      raise e
  end.

Definition row_of_entry (item : entry) : row :=
  {| row_date := date item;
     row_type := if String.eqb (type item) "upload" then "آپلود" else "دانلود";
     row_file := file item;
     row_status :=
       if String.eqb (status item) "success" then "موفق" else "ناموفق" |}.

(** [update_history_display] (lines 339-358). *)
Definition update_history_display : M unit :=
  h ← gets transfer_history;
  on_self (set_history_tree (map row_of_entry (rev h))).

(** [add_to_history] (lines 318-337). *)
Definition add_to_history (env : Env) (transfer_type filename status : string)
  : M unit :=
  h ← gets transfer_history;
  let e := {| date := now env; type := transfer_type;
              file := filename; status := status |} in
  on_self (set_transfer_history (h ++ [e]));;
  emit (HistoryAppend e);;
  save_history;;
  update_history_display.

(** [clear_history] (lines 360-371); [confirm] is the answer to the
    yes/no box. *)
Definition clear_history (confirm : bool) : M unit :=
  emit (AskYesNo "Clear History" confirm);;
  if confirm then
    on_self (set_transfer_history []);;
    save_history;;
    update_history_display
  else mret tt.

(** [_convert_stringval] of ttk, through which [item(id)["values"]]
    passes every cell. *)
Definition convert_stringval (w : World) (s : string) : cell :=
  match cell_as_int w s with
  | Some n => CInt n
  | None => CStr s
  end.

(** [self.history_tree.item(item_id)["values"]] for a row of the tree. *)
Definition item_values_of (w : World) (r : row) : values :=
  {| v_date := convert_stringval w (row_date r);
     v_type := convert_stringval w (row_type r);
     v_file := convert_stringval w (row_file r);
     v_status := convert_stringval w (row_status r) |}.

(** [s == c] for a string and a cell: a string never equals an int. *)
Definition str_eq (s : string) (c : cell) : bool :=
  match c with
  | CStr t => String.eqb s t
  | CInt _ => false
  end.

(** The test of lines 266-271, on the values of a selected row. *)
Definition matches (item_values : values) (e : entry) : bool :=
  str_eq (date e) (v_date item_values)
  && str_eq (file e) (v_file item_values)
  && String.eqb (status e)
       (if str_eq "موفق" (v_status item_values)
        then "success" else "failed").

(** Index of the first entry the test accepts. *)
Fixpoint first_match (item_values : values) (h : list entry) : option nat :=
  match h with
  | [] => None
  | e :: r =>
      if matches item_values e then Some 0%nat
      else S <$> first_match item_values r
  end.

(** The inner loop of lines 265-273: [del] at the first match, [break]. *)
Definition delete_entry (item_values : values) (h : list entry)
  : list entry :=
  match first_match item_values h with
  | Some i => delete i h
  | None => h
  end.

(** The outer loop of lines 262-273 over the selected item ids; an id
    is the position of its row in the tree. *)
Fixpoint delete_items (selected_items : list nat) : M unit :=
  match selected_items with
  | [] => mret tt
  | item_id :: rest =>
      tree ← gets history_tree;
      match tree !! item_id with
      | None => raise TclError
      | Some r =>
          item_values ← getw (fun w => item_values_of w r);
          h ← gets transfer_history;
          on_self (set_transfer_history (delete_entry item_values h));;
          delete_items rest
      end
  end.

(** [delete_selected_history] (lines 246-277). *)
Definition delete_selected_history (selected_items : list nat)
    (confirm : bool) : M unit :=
  match selected_items with
  | [] => emit (MsgWarning "لطفا یک مورد را انتخاب کنید")
  | _ :: _ =>
      emit (AskYesNo "Delete" confirm);;
      if confirm then
        delete_items selected_items;;
        save_history;;
        update_history_display
      else mret tt
  end.

(** ** Progress *)

(** [a / b] on Python integers: the quotient, or ZeroDivisionError when
    the divisor is zero.  The float is kept as the exact quotient. *)
Definition truediv (a b : Z) : M Q :=
  if Z.eqb b 0 then raise ZeroDivisionError
  else mret (inject_Z a / inject_Z b)%Q.

(** [update_progress] (lines 279-292). *)
Definition update_progress (transferred total : Z) : M unit :=
  q ← truediv transferred total;
  let percentage := (q * 100)%Q in
  on_self (set_progress percentage (Percent percentage transferred total)).

(** The Tk main loop running one scheduled callback. *)
Definition tk_dispatch (cb : tk_callback) : M unit :=
  match cb with
  | CbProgress transferred total => update_progress transferred total
  | CbStatus text fg => on_self (set_status_label text fg)
  end.

(** The progress samples a trace hands to the main loop for
    [update_progress], in order. *)
Fixpoint samples (tr : list event) : list (Z * Z) :=
  match tr with
  | [] => []
  | After (CbProgress t n) :: r => (t, n) :: samples r
  | _ :: r => samples r
  end.

(** ** The SFTP session *)

(** [paramiko.Transport((server, 22))]. *)
Definition transport_new (env : Env) (server : string) (port : Z) : M unit :=
  emit (TransportNew server port);;
  match net_transport env with
  | Some e => raise e
  | None =>
      on_world (fun w =>
        set_connections (S (open_transports w)) (open_channels w) w)
  end.

(** [transport.connect(username=..., password=...)]. *)
Definition transport_connect (env : Env) (username password : string)
  : M unit :=
  emit (TransportConnect username password);;
  match net_auth env with
  | Some e => raise e
  | None => mret tt
  end.

(** [paramiko.SFTPClient.from_transport(transport)]. *)
Definition sftp_from_transport (env : Env) : M unit :=
  emit SftpFromTransport;;
  match net_sftp env with
  | Some e => raise e
  | None =>
      on_world (fun w =>
        set_connections (open_transports w) (S (open_channels w)) w)
  end.

(** [sftp.close()]. *)
Definition sftp_close : M unit :=
  emit SftpClose;;
  on_world (fun w =>
    set_connections (open_transports w) (Nat.pred (open_channels w)) w).

(** [transport.close()]. *)
Definition transport_close : M unit :=
  emit TransportClose;;
  on_world (fun w =>
    set_connections (Nat.pred (open_transports w)) (open_channels w) w).

(** [os.path.getsize(path)]. *)
Definition getsize (env : Env) (path : string) : M Z :=
  emit (GetSize path);;
  match local_size env path with
  | Some n => mret n
  | None => raise (OSError path)
  end.

(** [sftp.stat(remote).st_size]. *)
Definition sftp_stat (env : Env) (remote : string) : M Z :=
  emit (SftpStat remote);;
  match remote_size env remote with
  | Some n => mret n
  | None => raise (FileNotFoundError remote)
  end.

(** Modelled from the spec: the byte stream of the Session's [upload] and
    [download] (paramiko's [put] and [get], a library outside src/).  The
    total is computed once before the stream starts; the file moves in
    chunks of [chunk_size] bytes, the last one shorter, and the progress
    callback is invoked after every chunk write with the bytes moved so
    far and the total.  A failure in mid-stream ends the stream with an
    error after the chunks already written.  [n_chunks] is the number of
    chunk writes of a whole file. *)
Definition n_chunks (c : positive) (total : Z) : nat :=
  Z.to_nat ((total + Z.pos c - 1) / Z.pos c).

(** Modelled from the spec: the bytes moved after [i] chunk writes. *)
Definition sent_after (c : positive) (total : Z) (i : nat) : Z :=
  Z.min (Z.of_nat i * Z.pos c) total.

(** Modelled from the spec: the chunk writes number [i+1] to [i+k], each
    followed by the progress callback. *)
Fixpoint stream (callback : Z -> Z -> M unit) (c : positive) (total : Z)
    (i k : nat) : M unit :=
  match k with
  | O => mret tt
  | S k' =>
      emit (Chunk (sent_after c total (S i) - sent_after c total i));;
      callback (sent_after c total (S i)) total;;
      stream callback c total (S i) k'
  end.

(** Modelled from the spec: the stream of a file of [total] bytes, whole
    or cut by the link after [link_drop] chunk writes. *)
Definition transfer (env : Env) (callback : Z -> Z -> M unit) (total : Z)
  : M unit :=
  let n := n_chunks (chunk_size env) total in
  match link_drop env with
  | Some d =>
      if (d <? n)%nat then
        stream callback (chunk_size env) total 0 d;;
        raise (IOError "connection lost")
      else stream callback (chunk_size env) total 0 n
  | None => stream callback (chunk_size env) total 0 n
  end.

(** Modelled from the spec: [sftp.put(localpath, remotepath,
    callback=callback)], the Session's upload: the total is the size of
    the local file. *)
Definition sftp_put (env : Env) (localpath remotepath : string)
    (callback : Z -> Z -> M unit) : M unit :=
  emit (SftpPut localpath remotepath);;
  match local_size env localpath with
  | Some total => transfer env callback total
  | None => raise (OSError localpath)
  end.

(** Modelled from the spec: [sftp.get(remotepath, localpath,
    callback=callback)], the Session's download: the local file is opened
    for writing, then the remote one is read; the total is the size of
    the remote file. *)
Definition sftp_get (env : Env) (remotepath localpath : string)
    (callback : Z -> Z -> M unit) : M unit :=
  emit (SftpGet remotepath localpath);;
  on_world (add_local_file localpath);;
  match remote_size env remotepath with
  | Some total => transfer env callback total
  | None => raise (FileNotFoundError remotepath)
  end.

(** ** The transfer routine *)

(** How the body of the [try] leaves the [if]/[elif]: by falling through
    to the lines after it, or by [return]. *)
Inductive flow := Next | Return.

(** [self.file_path], an attribute that [select_file] creates. *)
Definition get_file_path : M string :=
  fp ← gets file_path;
  match fp with
  | Some p => mret p
  | None => raise (AttributeError "file_path")
  end.

(** The [callback] closures of lines 460-462 and 502-504. *)
Definition callback (transferred total : Z) : M unit :=
  emit (After (CbProgress transferred total)).

(** [_transfer_file] (lines 409-545). *)
Definition _transfer_file (env : Env) (action remote_file : string) : M unit :=
  server ← gets server_entry;
  username ← gets username_entry;
  password ← gets password_entry;
  if negb (all [server; username; password]) then
    emit (MsgError "لطفا تمامی مشخصات را پر کنید")
  else
    try_except
      (on_self (set_progress 0 (Plain ""));;
       on_self (set_status_label "درحال اتصال..." "blue");;
       transport_new env server 22;;
       transport_connect env username password;;
       sftp_from_transport env;;
       fl ← (if String.eqb action "upload" then
               fp ← get_file_path;
               let remote_path := basename fp in
               file_size ← getsize env fp;
               sftp_put env fp remote_path callback;;
               emit (After (CbStatus ("فایل آپلود شده در " +:+ remote_path)
                                     "green"));;
               add_to_history env "upload" (basename fp) "success";;
               emit (MsgInfo ("File '" +:+ basename fp
                              +:+ "' با موفقیت بارگذاری شد!"));;
               mret Next
             else if String.eqb action "download" then
               emit (AskSaveAs remote_file (save_dialog env));;
               let save_path := save_dialog env in
               if negb (truthy save_path) then
                 emit (After (CbStatus "دانلود متوقف شد" "red"));;
                 add_to_history env "download" remote_file "failed";;
                 mret Return
               else
                 file_size ← sftp_stat env remote_file;
                 sftp_get env remote_file save_path callback;;
                 emit (After (CbStatus ("فایل ذخیره شد در " +:+ save_path)
                                       "green"));;
                 add_to_history env "download" remote_file "success";;
                 emit (MsgInfo ("File '" +:+ remote_file
                                +:+ "' با موفقیت دانلود شد!"));;
                 mret Next
             else mret Next);
       match fl with
       | Return => mret tt
       | Next => sftp_close;; transport_close
       end)
      (fun e =>
         emit (MsgTransferError action e);;
         emit (After (CbStatus "" "red"));;
         filename ← (if String.eqb action "download" then mret remote_file
                     else fp ← get_file_path; mret (basename fp));
         add_to_history env action filename "failed").

(** [upload_file] (lines 373-387). *)
Definition upload_file (env : Env) : M unit :=
  fp ← gets file_path;
  match fp with
  | None => emit (MsgError "لطفا فایل مورد نظر برای آپلود را انتخاب کنید!")
  | Some p =>
      if negb (truthy p) then
        emit (MsgError "لطفا فایل مورد نظر برای آپلود را انتخاب کنید!")
      else thread_start (_transfer_file env "upload" "")
  end.

(** [download_file] (lines 389-407). *)
Definition download_file (env : Env) : M unit :=
  remote_file ← gets remote_file_entry;
  if negb (truthy remote_file) then
    emit (MsgError "لطفا نام فایل ریموت برای دانلود را وارد کنید!")
  else thread_start (_transfer_file env "download" remote_file).

(** ** Vocabulary of the properties *)

(** The two outcomes of a history record, their stored and displayed
    forms (lines 332 and 356). *)
Inductive transfer_outcome := Success | Failed.

Definition stored (o : transfer_outcome) : string :=
  match o with Success => "success" | Failed => "failed" end.

Definition displayed (o : transfer_outcome) : string :=
  match o with Success => "موفق" | Failed => "ناموفق" end.

(** An entry holds the key (date, file, outcome). *)
Definition holds_key (d f : string) (o : transfer_outcome) (e : entry) : Prop :=
  date e = d /\ file e = f /\ status e = stored o.

(** Events that move file bytes over the network. *)
Definition moves_bytes (ev : event) : bool :=
  match ev with
  | SftpPut _ _ | SftpGet _ _ | Chunk _ => true
  | _ => false
  end.

Definition is_append (ev : event) : bool :=
  match ev with HistoryAppend _ => true | _ => false end.

Definition is_close (ev : event) : bool :=
  match ev with SftpClose | TransportClose => true | _ => false end.

(** Every [P] event of the trace comes before every [Q] event. *)
Definition precedes (P Q : event -> bool) (tr : list event) : Prop :=
  forall i j x y,
    tr !! i = Some x -> tr !! j = Some y ->
    P x = true -> Q y = true -> (i < j)%nat.

(** Every history append of the trace comes after some session close. *)
Definition recorded_after_close (tr : list event) : Prop :=
  forall i a,
    tr !! i = Some a -> is_append a = true ->
    exists j c, tr !! j = Some c /\ is_close c = true /\ (j < i)%nat.

(** The three properties of a sequence of progress samples. *)
Definition non_decreasing (l : list (Z * Z)) : Prop :=
  forall i j a b,
    l !! i = Some a -> l !! j = Some b -> (i <= j)%nat -> fst a <= fst b.

Definition within_total (l : list (Z * Z)) : Prop :=
  Forall (fun s => fst s <= snd s) l.

Definition ends_at_total (l : list (Z * Z)) : Prop :=
  forall s, last l = Some s -> fst s = snd s.

(** The events of the chunk writes number [i+1] to [i+k]. *)
Definition stream_events (c : positive) (total : Z) (i k : nat) : list event :=
  flat_map
    (fun j => [Chunk (sent_after c total (S j) - sent_after c total j);
               After (CbProgress (sent_after c total (S j)) total)])
    (seq i k).

(** The progress samples of the first [k] chunk writes. *)
Definition stream_samples (c : positive) (total : Z) (k : nat) : list (Z * Z) :=
  map (fun j => (sent_after c total (S j), total)) (seq 0 k).

(** The claim on the samples of a transfer, as the specification words it. *)
Definition samples_as_claimed (l : list (Z * Z)) : Prop :=
  non_decreasing l /\ within_total l /\ ends_at_total l.

(** How many chunks a transfer writes, and whether the link breaks
    before the last one. *)
Definition chunks_written (env : Env) (total : Z) : nat :=
  let n := n_chunks (chunk_size env) total in
  match link_drop env with
  | Some d => if (d <? n)%nat then d else n
  | None => n
  end.

Definition interrupted (env : Env) (total : Z) : bool :=
  match link_drop env with
  | Some d => (d <? n_chunks (chunk_size env) total)%nat
  | None => false
  end.

(** A connection field is empty (line 430). *)
Definition params_incomplete (st : State) : Prop :=
  all [server_entry (self st); username_entry (self st);
       password_entry (self st)] = false.

(** A run that only shows an error box: it raises nothing and leaves
    the application, the history file and the connections as they were. *)
Definition rejected (run : result unit * State * list event) (st : State)
  : Prop :=
  result_of run = Ok tt /\ final run = st /\
  exists text, events run = [MsgError text].

(** ** Sample inputs *)

Module Sample.

Definition app : Self :=
  {| server_entry := "sftp.example.org"; username_entry := "u";
     password_entry := "p"; remote_file_entry := "report.bin";
     file_path := Some "/tmp/a.txt";
     transfer_history := []; history_tree := [];
     progress_bar := 0; progress_label := Plain "";
     status_label := ("", "blue") |}.

(** How the sample toolkit reads a cell: as Python's [int] reads ASCII
    text, that is blanks, a sign, and digits with single underscores
    between them. *)
Definition is_blank (c : ascii) : bool :=
  let n := N_of_ascii c in
  ((9 <=? n) && (n <=? 13) || (28 <=? n) && (n <=? 32))%N.

Definition digit_value (c : ascii) : option Z :=
  let n := N_of_ascii c in
  if ((48 <=? n) && (n <=? 57))%N then Some (Z.of_N n - 48) else None.

Fixpoint read_digits (acc : Z) (after_digit : bool) (l : list ascii)
  : option Z :=
  match l with
  | [] => if after_digit then Some acc else None
  | c :: r =>
      match digit_value c with
      | Some d => read_digits (10 * acc + d) true r
      | None =>
          if Ascii.eqb c "_"%char && after_digit
          then read_digits acc false r else None
      end
  end.

Fixpoint drop_blanks (l : list ascii) : list ascii :=
  match l with
  | c :: r => if is_blank c then drop_blanks r else l
  | [] => []
  end.

Definition ascii_int (s : string) : option Z :=
  let strip l := rev (drop_blanks (rev (drop_blanks l))) in
  match strip (list_ascii_of_string s) with
  | "+"%char :: r => read_digits 0 false r
  | "-"%char :: r => Z.opp <$> read_digits 0 false r
  | l => read_digits 0 false l
  end.

Definition fresh_world : World :=
  {| disk := Absent; disk_write := WriteOk; cell_as_int := ascii_int;
     local_files := [];
     open_transports := 0; open_channels := 0 |}.

(** The same world with a history file that cannot be opened for
    writing. *)
Definition read_only (w : World) : World :=
  {| disk := disk w; disk_write := OpenRaises PermissionError;
     cell_as_int := cell_as_int w; local_files := local_files w;
     open_transports := open_transports w;
     open_channels := open_channels w |}.

Definition st : State := {| self := app; world := fresh_world |}.

Definition with_file (p : option string) (s : Self) : Self :=
  {| server_entry := server_entry s; username_entry := username_entry s;
     password_entry := password_entry s;
     remote_file_entry := remote_file_entry s; file_path := p;
     transfer_history := transfer_history s;
     history_tree := history_tree s;
     progress_bar := progress_bar s; progress_label := progress_label s;
     status_label := status_label s |}.

Definition with_entries (server user password remote : string) (s : Self)
  : Self :=
  {| server_entry := server; username_entry := user;
     password_entry := password;
     remote_file_entry := remote; file_path := file_path s;
     transfer_history := transfer_history s;
     history_tree := history_tree s;
     progress_bar := progress_bar s; progress_label := progress_label s;
     status_label := status_label s |}.

(** The selected local file has 100000 bytes. *)
Definition st_big : State :=
  {| self := with_file (Some "/tmp/big.iso") app; world := fresh_world |}.

(** No local file was selected; no password was typed; no remote
    name was typed. *)
Definition st_no_file : State :=
  {| self := with_file None app; world := fresh_world |}.
Definition st_no_password : State :=
  {| self := with_entries "sftp.example.org" "u" "" "report.bin" app;
     world := fresh_world |}.
Definition st_no_remote : State :=
  {| self := with_entries "sftp.example.org" "u" "p" "" app;
     world := fresh_world |}.

(** A working server that has [report.bin] (100000 bytes); the local
    file [/tmp/a.txt] has 10 bytes. *)
Definition env : Env :=
  {| now := "2024-05-01 10:30";
     net_transport := None; net_auth := None; net_sftp := None;
     local_size := fun p =>
       if String.eqb p "/tmp/a.txt" then Some 10
       else if String.eqb p "/tmp/big.iso" then Some 100000 else None;
     remote_size := fun p =>
       if String.eqb p "report.bin" then Some 100000 else None;
     save_dialog := "/home/u/report.bin";
     chunk_size := 32768;
     link_drop := None |}.

(** The user closes the save dialog without choosing a destination. *)
Definition env_declined : Env :=
  {| now := now env; net_transport := None; net_auth := None;
     net_sftp := None; local_size := local_size env;
     remote_size := remote_size env; save_dialog := "";
     chunk_size := chunk_size env; link_drop := None |}.

(** The link breaks after the first chunk write. *)
Definition env_drop : Env :=
  {| now := now env; net_transport := None; net_auth := None;
     net_sftp := None; local_size := local_size env;
     remote_size := remote_size env; save_dialog := save_dialog env;
     chunk_size := chunk_size env; link_drop := Some 1%nat |}.

(** The server rejects the password. *)
Definition env_auth : Env :=
  {| now := now env; net_transport := None;
     net_auth := Some AuthenticationException;
     net_sftp := None; local_size := local_size env;
     remote_size := remote_size env; save_dialog := save_dialog env;
     chunk_size := chunk_size env; link_drop := None |}.

(** The server has no file of the requested name. *)
Definition env_missing : Env :=
  {| now := now env; net_transport := None; net_auth := None;
     net_sftp := None; local_size := local_size env;
     remote_size := fun _ => None; save_dialog := save_dialog env;
     chunk_size := chunk_size env; link_drop := None |}.

(** Three records that share the file name. *)
Definition e1 : entry := Entry "2024-05-01 10:30" "upload" "a.txt" "failed".
Definition e2 : entry := Entry "2024-05-01 10:31" "upload" "a.txt" "success".
Definition e3 : entry := Entry "2024-05-02 09:00" "upload" "a.txt" "failed".

Definition st_logged : State :=
  {| self :=
       set_history_tree (map row_of_entry (rev [e1; e2; e3]))
         (set_transfer_history [e1; e2; e3] app);
     world := set_disk (Holds (json_of_history [e1; e2; e3])) fresh_world |}.

(** The same log over a history file that cannot be written, and the
    empty log over such a file. *)
Definition st_read_only : State :=
  {| self := self st_logged; world := read_only (world st_logged) |}.

Definition st_unwritable : State :=
  {| self := app; world := read_only fresh_world |}.

(** The same world with the disk full: the file is opened and emptied,
    and the dump raises before any text is kept. *)
Definition disk_full (w : World) : World :=
  {| disk := disk w;
     disk_write := DumpRaises (OSError "No space left on device") "";
     cell_as_int := cell_as_int w; local_files := local_files w;
     open_transports := open_transports w;
     open_channels := open_channels w |}.

Definition st_disk_full : State :=
  {| self := self st_logged; world := disk_full (world st_logged) |}.

(** A log whose one record is of a file named by a number. *)
Definition numbered : entry :=
  Entry "2024-05-04 12:00" "upload" "123" "success".

Definition st_numbered : State :=
  {| self :=
       set_history_tree (map row_of_entry (rev [numbered]))
         (set_transfer_history [numbered] app);
     world := set_disk (Holds (json_of_history [numbered])) fresh_world |}.

End Sample.

(** ** Starting the application *)

(** The object before anything is typed or selected (lines 76-78, 91,
    127, 208). *)
Definition blank : Self :=
  {| server_entry := ""; username_entry := ""; password_entry := "";
     remote_file_entry := ""; file_path := None;
     transfer_history := []; history_tree := [];
     progress_bar := 0; progress_label := Plain "";
     status_label := ("", "blue") |}.

(** Lines 42-44 and 213-214 of [__init__]: the log of a new object is
    what [load_history] returns, and the tree is filled from it.  The
    result is [None] when the loaded document is not a list of records
    as [add_to_history] builds them: such a log is outside the records
    of this development. *)
Definition startup (w : World) : option State :=
  match load_history {| self := blank; world := w |} with
  | (Ok doc, st, _) =>
      h ← history_of_json doc;
      Some (final (update_history_display
                     {| self := set_transfer_history h (self st);
                        world := world st |}))
  | (Raise _, _, _) => None
  end.

(** The log a new object starts with. *)
Definition loaded (w : World) : option (list entry) :=
  transfer_history ∘ self <$> startup w.

(** ** The file selection *)

(** The window state that only [select_file] writes: the text of the
    label under the selection button. *)
Record Window := { core : State; file_label : string }.

Definition set_file_path (p : string) (s : Self) : Self :=
  {| server_entry := server_entry s; username_entry := username_entry s;
     password_entry := password_entry s;
     remote_file_entry := remote_file_entry s; file_path := Some p;
     transfer_history := transfer_history s;
     history_tree := history_tree s;
     progress_bar := progress_bar s; progress_label := progress_label s;
     status_label := status_label s |}.

(** [select_file] (lines 216-231); [answer] is what the file dialog
    returns, the empty string when it is cancelled.  The dialog itself
    leaves no event; the label is left as it was when reading the size
    raises. *)
Definition select_file (env : Env) (answer : string) (w : Window)
  : result unit * Window * list event :=
  let st1 := {| self := set_file_path answer (self (core w));
                world := world (core w) |} in
  if truthy answer then
    match getsize env answer st1 with
    | (Ok file_size, st2, tr) =>
        (Ok tt,
         {| core := st2;
            file_label := "انتخاب شده: " +:+ basename answer +:+ " ("
                          +:+ pretty file_size +:+ " bytes)" |},
         tr)
    | (Raise e, st2, tr) =>
        (Raise e, {| core := st2; file_label := file_label w |}, tr)
    end
  else
    (Ok tt, {| core := st1; file_label := "فایلی انتخاب نشده" |}, []).

(** The window that [select_file] leaves. *)
Definition selected (env : Env) (answer : string) (w : Window) : Window :=
  snd (fst (select_file env answer w)).

(** ** More vocabulary *)

(** The history file can be written. *)
Definition writable (st : State) : Prop := disk_write (world st) = WriteOk.

(** ttk hands the cell back as the text it holds. *)
Definition reads_as_text (w : World) (s : string) : Prop :=
  cell_as_int w s = None.

(** The claim on a declined download as the specification words it:
    one Failed record. *)
Definition declined_records_once (env : Env) (st : State)
    (remote_file : string) : Prop :=
  AskSaveAs remote_file "" ∈ events (download_file env st) ->
  transfer_history (self (final (download_file env st)))
  = transfer_history (self st)
    ++ [Entry (now env) "download" remote_file "failed"].


(** The history file holds the log in memory. *)
Definition flushed (st : State) : Prop :=
  disk (world st) = Holds (json_of_history (transfer_history (self st))).

(** The tree shows the log in memory, most recent first. *)
Definition shown (st : State) : Prop :=
  history_tree (self st) = map row_of_entry (rev (transfer_history (self st))).

Definition in_sync (st : State) : Prop := flushed st /\ shown st.

(** All three connection fields are filled (line 430). *)
Definition params_complete (st : State) : Prop :=
  all [server_entry (self st); username_entry (self st);
       password_entry (self st)] = true.

(** The first of the three calls that open the session to raise, if any
    (lines 445-449). *)
Definition first_failure (env : Env) : option exn :=
  match net_transport env with
  | Some e => Some e
  | None =>
      match net_auth env with
      | Some e => Some e
      | None => net_sftp env
      end
  end.

(** The session opens, the save dialog is answered, the remote file is
    there and its stream is not cut: no call of the download raises and
    the routine does not return early. *)
Definition download_ok (env : Env) (remote_file : string) : bool :=
  match first_failure env with
  | Some _ => false
  | None =>
      truthy (save_dialog env)
      && match remote_size env remote_file with
         | Some total => negb (interrupted env total)
         | None => false
         end
  end.

(** The session opens, the local file [p] is there and its stream is not
    cut: no call of the upload raises. *)
Definition upload_ok (env : Env) (p : string) : bool :=
  match first_failure env with
  | Some _ => false
  | None =>
      match local_size env p with
      | Some total => negb (interrupted env total)
      | None => false
      end
  end.

(** Events of the session after it is open, and questions to the user. *)
Definition after_connect (ev : event) : bool :=
  match ev with
  | AskSaveAs _ _ | GetSize _ | SftpStat _ | SftpPut _ _ | SftpGet _ _
  | Chunk _ | MsgInfo _ | SftpClose | TransportClose => true
  | _ => false
  end.

(** Events that belong to a download only, and to an upload only. *)
Definition download_only (ev : event) : bool :=
  match ev with
  | AskSaveAs _ _ | SftpStat _ | SftpGet _ _ => true
  | _ => false
  end.

Definition upload_only (ev : event) : bool :=
  match ev with
  | GetSize _ | SftpPut _ _ => true
  | _ => false
  end.

(** A path component separator occurs in the string. *)
Fixpoint has_slash (s : string) : bool :=
  match s with
  | EmptyString => false
  | String c r => Ascii.eqb c "/"%char || has_slash r
  end.

(** What an upload of the local path [p] may send and record: the file
    itself, under its base name. *)
Definition upload_names (p : string) (ev : event) : Prop :=
  match ev with
  | SftpPut localpath remotepath => localpath = p /\ remotepath = basename p
  | HistoryAppend e => file e = basename p
  | _ => True
  end.

(** The message boxes. *)
Definition is_box (ev : event) : bool :=
  match ev with
  | MsgError _ | MsgTransferError _ _ | MsgInfo _ | MsgWarning _ => true
  | _ => false
  end.

(** Two records agree on what the deletion loop compares. *)
Definition same_key (a b : entry) : Prop :=
  date a = date b /\ file a = file b /\ status a = status b.

(** The status is one of the two the program writes. *)
Definition written_status (e : entry) : Prop :=
  status e = "success" \/ status e = "failed".

Module Scene.

(** The sample window, with nothing selected yet. *)
Definition window : Window :=
  {| core := Sample.st_no_file; file_label := "فایلی انتخاب نشده" |}.

(** A record whose status the program never writes, and a log that
    holds it after a Failed record of the same minute and file. *)
Definition odd : entry := Entry "2024-05-03 08:00" "upload" "b.txt" "pending".
Definition twin : entry := Entry "2024-05-03 08:00" "upload" "b.txt" "failed".

Definition st_odd : State :=
  {| self :=
       set_history_tree (map row_of_entry (rev [twin; odd]))
         (set_transfer_history [twin; odd] Sample.app);
     world := set_disk (Holds (json_of_history [twin; odd]))
                Sample.fresh_world |}.

End Scene.

(** ** The model on the scenarios of the specification *)

Example basename_of_path : basename "/tmp/a.txt" = "a.txt".
Proof. reflexivity. Qed.

Example basename_of_name : basename "a.txt" = "a.txt".
Proof. reflexivity. Qed.

(** Halfway through a file the bar stands at fifty. *)
Example update_progress_half :
  (progress_bar (self (final (update_progress 5 10 Sample.st))) == 50)%Q.
Proof. reflexivity. Qed.

(** The upload of the 10-byte [/tmp/a.txt] over a working connection. *)
Example upload_scenario :
  events (upload_file Sample.env Sample.st)
  = [TransportNew "sftp.example.org" 22; TransportConnect "u" "p";
     SftpFromTransport; GetSize "/tmp/a.txt"; SftpPut "/tmp/a.txt" "a.txt";
     Chunk 10; After (CbProgress 10 10);
     After (CbStatus "فایل آپلود شده در a.txt" "green");
     HistoryAppend (Entry "2024-05-01 10:30" "upload" "a.txt" "success");
     HistoryFlush [Entry "2024-05-01 10:30" "upload" "a.txt" "success"];
     MsgInfo "File 'a.txt' با موفقیت بارگذاری شد!";
     SftpClose; TransportClose]
  /\ transfer_history (self (final (upload_file Sample.env Sample.st)))
     = [Entry "2024-05-01 10:30" "upload" "a.txt" "success"].
Proof. split; reflexivity. Qed.

(** The download of a name the server does not have. *)
Example missing_download_scenario :
  events (download_file Sample.env_missing Sample.st)
  = [TransportNew "sftp.example.org" 22; TransportConnect "u" "p";
     SftpFromTransport; AskSaveAs "report.bin" "/home/u/report.bin";
     SftpStat "report.bin";
     MsgTransferError "download" (FileNotFoundError "report.bin");
     After (CbStatus "" "red");
     HistoryAppend (Entry "2024-05-01 10:30" "download" "report.bin" "failed");
     HistoryFlush [Entry "2024-05-01 10:30" "download" "report.bin" "failed"]]
  /\ local_files (world (final (download_file Sample.env_missing Sample.st)))
     = [].
Proof. split; reflexivity. Qed.

(** The rows of the tree are the log, most recent first. *)
Example tree_of_logged :
  map row_date (history_tree (self Sample.st_logged))
  = ["2024-05-02 09:00"; "2024-05-01 10:31"; "2024-05-01 10:30"].
Proof. reflexivity. Qed.

(** ** Proof tools *)

Arguments transfer : simpl never.
Arguments callback : simpl never.
Arguments all : simpl never.
Arguments basename : simpl never.
Arguments String.eqb : simpl never.
Arguments String.append : simpl never.
Arguments stream_events : simpl never.
Arguments after_write : simpl never.

(** Unfolds the routine and the monad down to pairs and matches. *)
Ltac unfold_run :=
  unfold upload_file, download_file, _transfer_file, transport_new,
    transport_connect, sftp_from_transport, sftp_put, sftp_get, sftp_stat,
    getsize, get_file_path, add_to_history, clear_history, save_history,
    update_history_display, load_history, sftp_close, transport_close,
    try_except, thread_start;
  unfold mbind, M_bind, mret, M_ret, gets, getw, on_self, on_world, emit,
    raise;
  cbn.

(** ** The history store *)





Lemma load_history_state (st : State) :
  final (load_history st) = st /\ events (load_history st) = [].
Proof. unfold_run. destruct (disk (world st)); auto. Qed.


Lemma first_match_split (v : values) (h : list entry) (i : nat) :
  first_match v h = Some i ->
  exists l1 e l2,
    h = l1 ++ e :: l2 /\ length l1 = i /\ matches v e = true /\
    Forall (fun x => matches v x = false) l1.
Proof.
  revert i. induction h as [|a h IH]; intros i Hi; [discriminate|].
  cbn in Hi. destruct (matches v a) eqn:Ha.
  - injection Hi as <-. exists [], a, h. auto.
  - destruct (first_match v h) as [k|] eqn:Hk; [|discriminate].
    injection Hi as <-.
    destruct (IH k eq_refl) as (l1 & e & l2 & -> & Hlen & He & Hl1).
    exists (a :: l1), e, l2. cbn. rewrite Hlen. auto.
Qed.

Lemma first_match_none (v : values) (h : list entry) :
  first_match v h = None -> Forall (fun x => matches v x = false) h.
Proof.
  induction h as [|a h IH]; intros Hn; [constructor|].
  cbn in Hn. destruct (matches v a) eqn:Ha; [discriminate|].
  destruct (first_match v h); [discriminate|]. auto.
Qed.

Lemma delete_middle {A} (l1 : list A) (x : A) (l2 : list A) :
  delete (length l1) (l1 ++ x :: l2) = l1 ++ l2.
Proof. induction l1 as [|a l1 IH]; cbn; [reflexivity|]. f_equal. exact IH. Qed.

(** A cell that ttk hands back as an integer equals no string of the
    log, so the test of the loop fails on every record. *)
Lemma matches_int_file (w : World) (r : row) (n : Z) (e : entry) :
  cell_as_int w (row_file r) = Some n ->
  matches (item_values_of w r) e = false.
Proof.
  intros Hn. unfold matches, item_values_of, convert_stringval. cbn.
  rewrite Hn. cbn. apply andb_false_intro1, andb_false_intro2. reflexivity.
Qed.

(** C6: the deletion loop misses a record whose file name reads as a
    number.  The sample log holds one record, of the file "123" with
    outcome Success, and the tree shows its row; ttk hands the file cell
    of that row back as the integer 123, which equals no string, so the
    confirmed deletion of the row removes nothing, although a record
    holds the key of the row.  The same deletion on a row of "a.txt"
    removes the record. *)
Theorem numbered_file_row_deletes_nothing :
  holds_key "2024-05-04 12:00" "123" Success Sample.numbered
  /\ Sample.numbered ∈ transfer_history (self Sample.st_numbered)
  /\ history_tree (self Sample.st_numbered) !! 0%nat
     = Some (Row "2024-05-04 12:00" "آپلود" "123" (displayed Success))
  /\ v_file (item_values_of (world Sample.st_numbered)
               (Row "2024-05-04 12:00" "آپلود" "123" (displayed Success)))
     = CInt 123
  /\ result_of (delete_selected_history [0%nat] true Sample.st_numbered)
     = Ok tt
  /\ transfer_history
       (self (final (delete_selected_history [0%nat] true
                       Sample.st_numbered)))
     = [Sample.numbered]
  /\ transfer_history
       (self (final (delete_selected_history [1%nat] true Sample.st_logged)))
     = [Sample.e1; Sample.e3].
Proof.
  split; [repeat split|].
  split; [apply list_elem_of_here|].
  repeat split.
Qed.




(** C8: [load] never raises, and when the history file is absent,
    unreadable or not a JSON document it returns the empty log; only a
    readable document is returned as it is. *)
Theorem load_history_never_fails (st : State) :
  (exists doc, result_of (load_history st) = Ok doc) /\
  load_history st =
    (Ok match disk (world st) with
        | Absent | Unreadable | Corrupt _ => JArr []
        | Holds doc => doc
        end, st, []).
Proof.
  unfold_run. destruct (disk (world st)); cbn; eauto.
Qed.

(** C10: a progress sample whose total is zero makes [update_progress]
    raise ZeroDivisionError, whatever the bytes transferred; nothing in
    [update_progress] or in the main loop that runs it catches it, and
    the progress bar is left as it was. *)
Theorem update_progress_zero_total (transferred : Z) (st : State) :
  update_progress transferred 0 st = (Raise ZeroDivisionError, st, []) /\
  tk_dispatch (CbProgress transferred 0) st = (Raise ZeroDivisionError, st, []).
Proof. split; reflexivity. Qed.

(** ** Running the session *)

Lemma stream_run (c : positive) (total : Z) (k : nat) : forall i st,
  stream callback c total i k st = (Ok tt, st, stream_events c total i k).
Proof.
  induction k as [|k IH]; intros i st; [reflexivity|].
  cbn [stream]. unfold mbind, M_bind, emit. unfold callback at 1. unfold emit.
  rewrite IH. reflexivity.
Qed.

Lemma transfer_run (env : Env) (total : Z) (st : State) :
  transfer env callback total st =
  (if interrupted env total then Raise (IOError "connection lost") else Ok tt,
   st, stream_events (chunk_size env) total 0 (chunks_written env total)).
Proof.
  unfold transfer, interrupted, chunks_written.
  destruct (link_drop env) as [d|]; [|apply stream_run].
  destruct (d <? _)%nat; [|apply stream_run].
  unfold mbind, M_bind. rewrite stream_run. unfold raise. by rewrite app_nil_r.
Qed.

Lemma eqb_download_upload : String.eqb "download" "upload" = false.
Proof. reflexivity. Qed.
Lemma eqb_upload_upload : String.eqb "upload" "upload" = true.
Proof. reflexivity. Qed.
Lemma eqb_download_download : String.eqb "download" "download" = true.
Proof. reflexivity. Qed.
Lemma eqb_upload_download : String.eqb "upload" "download" = false.
Proof. reflexivity. Qed.

(** One step of symbolic execution: a known test is rewritten, the byte
    stream is replaced by its events, an unknown test is split. *)
Ltac exec1 :=
  match goal with
  | H : ?x = _ |- context [match ?x with _ => _ end] => rewrite H
  | H : ?x = _ |- context [if ?x then _ else _] => rewrite H
  | |- context [transfer ?e callback ?t ?st] => rewrite (transfer_run e t st)
  | |- context [match ?x with _ => _ end] =>
      lazymatch x with
      | context [match _ with _ => _ end] => fail
      | _ => destruct x eqn:?
      end
  | |- context [if ?x then _ else _] =>
      lazymatch x with
      | context [match _ with _ => _ end] => fail
      | context [if _ then _ else _] => fail
      | _ => destruct x eqn:?
      end
  end.

Ltac exec :=
  unfold_run;
  rewrite ?eqb_download_upload, ?eqb_upload_upload, ?eqb_download_download,
    ?eqb_upload_download;
  cbn;
  repeat (exec1; cbn);
  rewrite <- ?app_assoc; cbn.

(** ** Traces *)

Lemma stream_events_Forall (Q : event -> Prop) c total k : forall i,
  (forall n, Q (Chunk n)) -> (forall a b, Q (After (CbProgress a b))) ->
  Forall Q (stream_events c total i k).
Proof.
  unfold stream_events. intros i Hc Ha. revert i.
  induction k as [|k IH]; intros i; cbn; auto.
Qed.

Section Precedes.

Variables P Q : event -> bool.

Lemma precedes_no_P (l : list event) :
  Forall (fun x => P x = false) l -> precedes P Q l.
Proof.
  intros Hl i j x y Hi _ Hx _. rewrite Forall_forall in Hl.
  apply list_elem_of_lookup_2 in Hi. apply Hl in Hi. congruence.
Qed.

Lemma precedes_cons (x : event) (l : list event) :
  Q x = false -> precedes P Q l -> precedes P Q (x :: l).
Proof.
  intros Hx Hl i j a b Hi Hj Ha Hb.
  destruct j as [|j]; cbn in Hj; [congruence|].
  destruct i as [|i]; [lia|]. cbn in Hi.
  specialize (Hl i j a b Hi Hj Ha Hb). lia.
Qed.

Lemma precedes_app (l1 l2 : list event) :
  Forall (fun x => Q x = false) l1 -> precedes P Q l2 -> precedes P Q (l1 ++ l2).
Proof.
  intros H1 H2. induction H1; cbn; [exact H2|]. by apply precedes_cons.
Qed.

End Precedes.

Ltac all_events :=
  repeat first
    [ apply Forall_nil_2
    | apply Forall_cons_2; [try reflexivity; try discriminate|]
    | apply Forall_app_2; [apply stream_events_Forall; intros; reflexivity|] ].

Ltac ordered :=
  first
    [ apply precedes_no_P; all_events; fail
    | apply precedes_cons; [reflexivity|]; ordered
    | apply precedes_app;
      [apply stream_events_Forall; intros; reflexivity|]; ordered ].

Lemma in_stream_events (x : event) c total k i :
  x ∈ stream_events c total i k ->
  (exists n, x = Chunk n) \/ (exists a b, x = After (CbProgress a b)).
Proof.
  intros Hx.
  pose proof (stream_events_Forall
    (fun x => (exists n, x = Chunk n) \/ (exists a b, x = After (CbProgress a b)))
    c total k i) as HF.
  rewrite Forall_forall in HF. apply HF; eauto.
Qed.

(** Takes a membership hypothesis on an executed trace apart. *)
Ltac in_trace H :=
  repeat match type of H with
  | _ ∈ _ :: _ => apply elem_of_cons in H as [H|H]
  | _ ∈ _ ++ _ => apply elem_of_app in H as [H|H]
  | _ ∈ [] => by apply elem_of_nil in H
  | _ ∈ stream_events _ _ _ _ =>
      apply in_stream_events in H as [[? H]|(? & ? & H)]
  | _ = _ => discriminate H
  end.

(** Finds an event in the part of an executed trace that is spelled out. *)
Ltac in_goal :=
  repeat first
    [ apply list_elem_of_here
    | apply list_elem_of_further
    | apply elem_of_app; right ].

(** ** The transfer routine *)

(** C9: when a connection field is empty, when no local file was chosen
    for an upload, or when no remote name was given for a download, the
    request ends in an error box: no connection is attempted, nothing is
    raised, and the application, the history log and the history file
    are left as they were. *)
Theorem validation_failure_records_nothing (env : Env) (st : State) :
  (params_incomplete st ->
     (forall action remote_file,
        rejected (_transfer_file env action remote_file st) st) /\
     rejected (upload_file env st) st /\
     rejected (download_file env st) st)
  /\ (file_path (self st) = None \/ file_path (self st) = Some "" ->
      rejected (upload_file env st) st)
  /\ (remote_file_entry (self st) = "" ->
      rejected (download_file env st) st).
Proof.
  unfold params_incomplete, rejected.
  split; [intros H; split; [intros action remote_file|split]|split].
  all: try (intros [H|H] || intros H); unfold_run.
  all: repeat (first [rewrite H | exec1]; cbn); eauto.
Qed.

Lemma validation_failure_records_nothing_witness :
  rejected (upload_file Sample.env Sample.st_no_password) Sample.st_no_password
  /\ rejected (download_file Sample.env Sample.st_no_password)
       Sample.st_no_password
  /\ rejected (upload_file Sample.env Sample.st_no_file) Sample.st_no_file
  /\ rejected (download_file Sample.env Sample.st_no_remote) Sample.st_no_remote.
Proof.
  pose proof (validation_failure_records_nothing Sample.env
                Sample.st_no_password) as (Hp & _ & _).
  pose proof (validation_failure_records_nothing Sample.env
                Sample.st_no_file) as (_ & Hf & _).
  pose proof (validation_failure_records_nothing Sample.env
                Sample.st_no_remote) as (_ & _ & Hr).
  destruct (Hp eq_refl) as (_ & Hu & Hd).
  repeat split; [apply Hu | apply Hd | apply Hf; left | apply Hr]; reflexivity.
Defined.

(** Symbolic execution under the known tests [H1] and [H2]. *)
Ltac exec_with H1 H2 :=
  unfold_run;
  rewrite ?eqb_download_upload, ?eqb_upload_upload, ?eqb_download_download,
    ?eqb_upload_download;
  cbn;
  repeat (first [rewrite H1 | rewrite H2 | exec1]; cbn);
  rewrite <- ?app_assoc; cbn.

Lemma stream_filter_none (P : event -> bool) c total i k :
  (forall n, P (Chunk n) = false) ->
  (forall a b, P (After (CbProgress a b)) = false) ->
  List.filter P (stream_events c total i k) = [].
Proof.
  intros Hc Ha.
  pose proof (stream_events_Forall (fun ev => P ev = false)
                c total k i Hc Ha) as HF.
  induction HF as [|x l Hx _ IH]; [reflexivity|].
  cbn. rewrite Hx. exact IH.
Qed.

Lemma stream_no_append c total i k :
  List.filter is_append (stream_events c total i k) = [].
Proof. apply stream_filter_none; reflexivity. Qed.

(** C1, the claim as stated, fails: when the history file cannot be
    opened for writing, line 495 appends the Failed record and raises in
    saving it, and the handler of the routine appends the same record a
    second time; the declined download leaves two records. *)
Lemma declined_records_once_fails :
  ~ declined_records_once Sample.env_declined Sample.st_unwritable "report.bin".
Proof.
  intros H.
  assert (Hin : AskSaveAs "report.bin" ""
                  ∈ events (download_file Sample.env_declined
                              Sample.st_unwritable))
    by (vm_compute; in_goal).
  specialize (H Hin). vm_compute in H. discriminate H.
Qed.

(** C1 (amended): when the save dialog of a download is closed without a
    destination, no event of the run moves file bytes; and when the
    history file can be written, the run appends exactly one entry to
    the history, the Failed entry of the requested remote name, and
    writes the log with it to the file. *)
Theorem declined_download_records_one_failure
    (env : Env) (st : State) (remote_file : string) :
  AskSaveAs remote_file "" ∈ events (download_file env st) ->
  let e := Entry (now env) "download" remote_file "failed" in
  Forall (fun ev => moves_bytes ev = false) (events (download_file env st))
  /\ (writable st ->
      transfer_history (self (final (download_file env st)))
        = transfer_history (self st) ++ [e]
      /\ List.filter is_append (events (download_file env st))
         = [HistoryAppend e]
      /\ disk (world (final (download_file env st)))
         = after_write (disk (world st))
             (Holds (json_of_history (transfer_history (self st) ++ [e])))).
Proof.
  intros H e. subst e. split.
  - revert H. exec; intros H; in_trace H.
    all: injection H as -> Hd; rewrite <- Hd in *; try discriminate.
    all: all_events.
  - intros Hw. unfold writable in Hw. revert H.
    exec_with Hw Hw; intros H; in_trace H.
    all: injection H as -> Hd; rewrite <- Hd in *; try discriminate.
    repeat split.
Qed.

Lemma declined_download_records_one_failure_witness :
  AskSaveAs "report.bin" ""
    ∈ events (download_file Sample.env_declined Sample.st)
  /\ transfer_history
       (self (final (download_file Sample.env_declined Sample.st)))
     = [Entry "2024-05-01 10:30" "download" "report.bin" "failed"]
  /\ Forall (fun ev => moves_bytes ev = false)
       (events (download_file Sample.env_declined Sample.st)).
Proof.
  assert (Hin : AskSaveAs "report.bin" ""
                  ∈ events (download_file Sample.env_declined Sample.st))
    by (vm_compute; in_goal).
  split; [exact Hin|].
  pose proof (declined_download_records_one_failure
                Sample.env_declined Sample.st "report.bin" Hin)
    as (Hb & Hrec).
  destruct (Hrec eq_refl) as (Hh & _).
  split; [exact Hh | exact Hb].
Defined.

(** C2: the session is closed only on the path that falls through to
    the last two lines of the [try] body.  A download whose save dialog
    is declined returns before them, an upload whose stream breaks and a
    login that the server rejects jump over them to the handler: each
    run ends with the transport it created not closed and without a
    close event, while the successful upload closes what it created. *)
Theorem session_left_open_on_early_exit :
  let declined := download_file Sample.env_declined Sample.st in
  let dropped := upload_file Sample.env_drop Sample.st_big in
  let refused := upload_file Sample.env_auth Sample.st in
  let completed := upload_file Sample.env Sample.st in
  (open_transports (world (final declined)) = 1%nat /\
   open_channels (world (final declined)) = 1%nat /\
   Forall (fun ev => is_close ev = false) (events declined))
  /\ (open_transports (world (final dropped)) = 1%nat /\
      open_channels (world (final dropped)) = 1%nat /\
      Forall (fun ev => is_close ev = false) (events dropped))
  /\ (open_transports (world (final refused)) = 1%nat /\
      Forall (fun ev => is_close ev = false) (events refused))
  /\ (open_transports (world (final completed)) = 0%nat /\
      open_channels (world (final completed)) = 0%nat /\
      SftpClose ∈ events completed /\ TransportClose ∈ events completed).
Proof.
  vm_compute. repeat split; try (repeat constructor; fail); in_goal.
Qed.

(** C3, the claim as stated, fails: in the successful upload of the
    sample file the history record is appended when no close has
    happened yet. *)
Lemma recorded_after_close_fails :
  ~ recorded_after_close (events (upload_file Sample.env Sample.st)).
Proof.
  intros H.
  destruct (H 8%nat
              (HistoryAppend
                 (Entry "2024-05-01 10:30" "upload" "a.txt" "success"))
              eq_refl eq_refl) as (j & c & Hj & Hc & Hlt).
  do 8 (destruct j as [|j]; [vm_compute in Hj; injection Hj as <-;
                             discriminate Hc|]).
  lia.
Qed.

(** C3 (amended): in every run of the transfer routine each event that
    moves bytes comes before each history append and before each close
    of the session, and each history append comes before each close; in
    a run that records a success while the history file can be written
    both closes are there, so the outcome is recorded after the last
    byte and while the connection is still open. *)
Theorem history_recorded_before_close
    (env : Env) (action remote_file : string) (st : State) :
  precedes moves_bytes is_append
    (events (_transfer_file env action remote_file st))
  /\ precedes moves_bytes is_close
       (events (_transfer_file env action remote_file st))
  /\ precedes is_append is_close
       (events (_transfer_file env action remote_file st))
  /\ (writable st ->
      forall e,
        HistoryAppend e ∈ events (_transfer_file env action remote_file st) ->
        status e = "success" ->
        SftpClose ∈ events (_transfer_file env action remote_file st) /\
        TransportClose ∈ events (_transfer_file env action remote_file st)).
Proof.
  split; [|split; [|split]].
  - exec; ordered.
  - exec; ordered.
  - exec; ordered.
  - intros Hw. unfold writable in Hw.
    exec_with Hw Hw; intros e0 H Hs; in_trace H.
    all: injection H as ->; try discriminate Hs.
    all: split; in_goal.
Qed.

Lemma history_recorded_before_close_witness :
  HistoryAppend (Entry "2024-05-01 10:30" "upload" "a.txt" "success")
    ∈ events (_transfer_file Sample.env "upload" "" Sample.st)
  /\ SftpClose ∈ events (_transfer_file Sample.env "upload" "" Sample.st)
  /\ TransportClose ∈ events (_transfer_file Sample.env "upload" "" Sample.st).
Proof.
  assert (Hin : HistoryAppend
                  (Entry "2024-05-01 10:30" "upload" "a.txt" "success")
                  ∈ events (_transfer_file Sample.env "upload" "" Sample.st))
    by (vm_compute; in_goal).
  split; [exact Hin|].
  destruct (history_recorded_before_close Sample.env "upload" "" Sample.st)
    as (_ & _ & _ & Hclose).
  exact (Hclose eq_refl _ Hin eq_refl).
Defined.

(** ** Progress samples *)

Lemma samples_app (l1 l2 : list event) :
  samples (l1 ++ l2) = samples l1 ++ samples l2.
Proof.
  induction l1 as [|a l1 IH]; [reflexivity|].
  destruct a as [| | | | | | | | | | | | | |cb| | | |]; cbn; try exact IH.
  destruct cb; cbn; [f_equal|]; exact IH.
Qed.

Lemma samples_stream_from (c : positive) (total : Z) (k : nat) : forall i,
  samples (stream_events c total i k)
  = map (fun j => (sent_after c total (S j), total)) (seq i k).
Proof.
  unfold stream_events.
  induction k as [|k IH]; intros i; [reflexivity|].
  cbn. f_equal. apply IH.
Qed.

Lemma samples_stream (c : positive) (total : Z) (k : nat) :
  samples (stream_events c total 0 k) = stream_samples c total k.
Proof. apply samples_stream_from. Qed.

Lemma stream_samples_lookup c total k i s :
  stream_samples c total k !! i = Some s ->
  (i < k)%nat /\ s = (sent_after c total (S i), total).
Proof.
  unfold stream_samples. rewrite list_lookup_fmap.
  destruct (seq 0 k !! i) as [j|] eqn:Hj; [|discriminate].
  apply lookup_seq in Hj as [-> Hlt]. cbn. intros [= <-]. auto.
Qed.

Lemma sent_after_mono c total (i j : nat) :
  (i <= j)%nat -> sent_after c total i <= sent_after c total j.
Proof.
  intros Hij. unfold sent_after.
  apply Z.min_le_compat_r. nia.
Qed.

Lemma sent_after_all c total :
  0 < total -> sent_after c total (n_chunks c total) = total.
Proof.
  intros Hpos. unfold sent_after, n_chunks.
  apply Z.min_r.
  assert (Hq : 0 <= (total + Z.pos c - 1) / Z.pos c)
    by (apply Z.div_pos; lia).
  rewrite Z2Nat.id by exact Hq.
  pose proof (Z.div_mod (total + Z.pos c - 1) (Z.pos c) ltac:(lia)) as Hdm.
  pose proof (Z.mod_pos_bound (total + Z.pos c - 1) (Z.pos c) ltac:(lia)).
  nia.
Qed.

Lemma n_chunks_nonpositive c total : total <= 0 -> n_chunks c total = 0%nat.
Proof.
  intros Hle. unfold n_chunks.
  assert ((total + Z.pos c - 1) / Z.pos c <= 0).
  { destruct (Z.eq_dec total 0) as [->|Hne].
    - rewrite Z.div_small; lia.
    - assert ((total + Z.pos c - 1) / Z.pos c < 1); [|lia].
      apply Z.div_lt_upper_bound; lia. }
  lia.
Qed.

Lemma stream_samples_non_decreasing c total k :
  non_decreasing (stream_samples c total k).
Proof.
  intros i j a b Hi Hj Hij.
  apply stream_samples_lookup in Hi as [_ ->].
  apply stream_samples_lookup in Hj as [_ ->].
  cbn. apply sent_after_mono. lia.
Qed.

Lemma stream_samples_within_total c total k :
  within_total (stream_samples c total k).
Proof.
  apply Forall_forall. intros s Hs.
  apply list_elem_of_lookup_1 in Hs as [i Hi].
  apply stream_samples_lookup in Hi as [_ ->].
  cbn. apply Z.le_min_r.
Qed.

Lemma stream_samples_ends_at_total c total :
  ends_at_total (stream_samples c total (n_chunks c total)).
Proof.
  intros s Hs.
  destruct (Z_le_gt_dec total 0) as [Hle|Hgt].
  - rewrite n_chunks_nonpositive in Hs by exact Hle. discriminate.
  - rewrite last_lookup in Hs.
    apply stream_samples_lookup in Hs as [Hlt ->].
    unfold stream_samples in *. rewrite length_map, length_seq in *.
    cbn. replace (S (Nat.pred (n_chunks c total))) with (n_chunks c total) by lia.
    apply sent_after_all. lia.
Qed.

Lemma chunks_written_complete env total :
  interrupted env total = false ->
  chunks_written env total = n_chunks (chunk_size env) total.
Proof.
  unfold interrupted, chunks_written.
  destruct (link_drop env); [|reflexivity]. by intros ->.
Qed.

Lemma no_samples :
  non_decreasing [] /\ within_total [] /\ ends_at_total [].
Proof.
  split; [|split].
  - intros i j a b Hi. discriminate.
  - constructor.
  - intros s Hs. discriminate.
Qed.

(** Brings the samples of an executed trace to those of its stream. *)
Ltac sample_trace :=
  cbn [samples]; rewrite ?samples_app, ?samples_stream; cbn [samples];
  rewrite ?app_nil_r.

(** C4, the claim as stated, fails: when the link breaks after the first
    chunk of the 100000-byte sample file, the only sample delivered
    is (32768, 100000), and it is the last one. *)
Lemma samples_as_claimed_fails :
  ~ samples_as_claimed
      (samples (events (upload_file Sample.env_drop Sample.st_big))).
Proof.
  intros (_ & _ & Hend).
  specialize (Hend (32768, 100000) eq_refl). discriminate Hend.
Qed.

(** C4 (amended): in every run of the transfer routine the samples
    handed to the progress update never decrease in the bytes
    transferred and never exceed the total; in a run that records a
    success the last sample, if there is one, has the bytes transferred
    equal to the total. *)
Theorem progress_samples_monotone_and_bounded
    (env : Env) (action remote_file : string) (st : State) :
  non_decreasing (samples (events (_transfer_file env action remote_file st)))
  /\ within_total (samples (events (_transfer_file env action remote_file st)))
  /\ ((exists e,
         HistoryAppend e ∈ events (_transfer_file env action remote_file st)
         /\ status e = "success") ->
      ends_at_total
        (samples (events (_transfer_file env action remote_file st)))).
Proof.
  split; [|split].
  - exec; sample_trace;
      first [apply no_samples | apply stream_samples_non_decreasing].
  - exec; sample_trace;
      first [apply no_samples | apply stream_samples_within_total].
  - exec; intros (rec & H & Hs); in_trace H.
    all: injection H as ->; try discriminate Hs.
    all: sample_trace; rewrite chunks_written_complete by assumption.
    all: apply stream_samples_ends_at_total.
Qed.

Lemma progress_samples_monotone_and_bounded_witness :
  samples (events (_transfer_file Sample.env "download" "report.bin" Sample.st))
  = [(32768, 100000); (65536, 100000); (98304, 100000); (100000, 100000)]
  /\ ends_at_total
       (samples (events (_transfer_file Sample.env "download" "report.bin"
                           Sample.st))).
Proof.
  split; [reflexivity|].
  destruct (progress_samples_monotone_and_bounded Sample.env "download"
              "report.bin" Sample.st) as (_ & _ & Hend).
  apply Hend.
  exists (Entry "2024-05-01 10:30" "download" "report.bin" "success").
  split; [vm_compute; in_goal | reflexivity].
Defined.

(** ** Downloads *)

Lemma bytes_after_stat (pre post : list event) (remote : string) :
  Forall (fun ev => moves_bytes ev = false) pre ->
  forall j y,
    (pre ++ SftpStat remote :: post) !! j = Some y -> moves_bytes y = true ->
    exists i, (i < j)%nat /\
              (pre ++ SftpStat remote :: post) !! i = Some (SftpStat remote).
Proof.
  intros Hpre j y Hj Hy.
  exists (length pre). split.
  - destruct (Nat.lt_ge_cases j (length pre)) as [Hlt|Hge].
    + rewrite lookup_app_l in Hj by exact Hlt.
      rewrite Forall_forall in Hpre.
      apply list_elem_of_lookup_2, Hpre in Hj. congruence.
    + destruct (Nat.eq_dec j (length pre)) as [->|Hne]; [|lia].
      rewrite list_lookup_middle in Hj by reflexivity.
      injection Hj as <-. discriminate Hy.
  - by apply list_lookup_middle.
Qed.

Lemma no_bytes_no_stat_needed (tr : list event) (remote : string) :
  Forall (fun ev => moves_bytes ev = false) tr ->
  forall j y,
    tr !! j = Some y -> moves_bytes y = true ->
    exists i, (i < j)%nat /\ tr !! i = Some (SftpStat remote).
Proof.
  intros Htr j y Hj Hy. rewrite Forall_forall in Htr.
  apply list_elem_of_lookup_2, Htr in Hj. congruence.
Qed.

(** C5: in every download the remote size is asked for before any
    event that moves bytes; and when the server has no file of the
    requested name, the run moves no byte and creates no local file, and
    once the size was asked for it ends in the not-found error box and a
    Failed entry of the remote name. *)
Theorem download_stats_before_streaming
    (env : Env) (st : State) (remote_file : string) :
  (forall j y,
     events (_transfer_file env "download" remote_file st) !! j = Some y ->
     moves_bytes y = true ->
     exists i, (i < j)%nat /\
       events (_transfer_file env "download" remote_file st) !! i
       = Some (SftpStat remote_file))
  /\ (remote_size env remote_file = None ->
      local_files (world (final (_transfer_file env "download" remote_file st)))
      = local_files (world st)
      /\ Forall (fun ev => moves_bytes ev = false)
           (events (_transfer_file env "download" remote_file st))
      /\ (SftpStat remote_file
            ∈ events (_transfer_file env "download" remote_file st) ->
          MsgTransferError "download" (FileNotFoundError remote_file)
            ∈ events (_transfer_file env "download" remote_file st)
          /\ transfer_history
               (self (final (_transfer_file env "download" remote_file st)))
             = transfer_history (self st)
               ++ [Entry (now env) "download" remote_file "failed"])).
Proof.
  split.
  - exec.
    all: first
      [ apply no_bytes_no_stat_needed; all_events; fail
      | apply (bytes_after_stat
                 [TransportNew _ _; TransportConnect _ _; SftpFromTransport;
                  AskSaveAs _ _]); all_events ].
  - intros Habsent. exec; try discriminate.
    all: split; [reflexivity|split; [all_events|]].
    all: intros H; in_trace H; split; first [reflexivity | in_goal].
Qed.

Lemma download_stats_before_streaming_witness :
  remote_size Sample.env_missing "report.bin" = None
  /\ SftpStat "report.bin"
       ∈ events (_transfer_file Sample.env_missing "download" "report.bin"
                   Sample.st)
  /\ local_files
       (world (final (_transfer_file Sample.env_missing "download"
                        "report.bin" Sample.st))) = []
  /\ MsgTransferError "download" (FileNotFoundError "report.bin")
       ∈ events (_transfer_file Sample.env_missing "download" "report.bin"
                   Sample.st).
Proof.
  assert (Hin : SftpStat "report.bin"
                  ∈ events (_transfer_file Sample.env_missing "download"
                              "report.bin" Sample.st))
    by (vm_compute; in_goal).
  destruct (download_stats_before_streaming Sample.env_missing Sample.st
              "report.bin") as (_ & Habsent).
  destruct (Habsent eq_refl) as (Hfiles & _ & Herr).
  destruct (Herr Hin) as (Hbox & _).
  split; [reflexivity|].
  split; [exact Hin|].
  split; [exact Hfiles | exact Hbox].
Defined.

(** ** The store stays in step with the log *)

Lemma after_write_readable (old new : history_file_state) :
  old <> Unreadable -> after_write old new = new.
Proof. unfold after_write. destruct old; congruence. Qed.

Lemma load_flushed (st : State) :
  flushed st ->
  result_of (load_history st)
  = Ok (json_of_history (transfer_history (self st))).
Proof. unfold flushed. intros Hf. unfold_run. rewrite Hf. reflexivity. Qed.

(** X1: a transfer keeps the store in step with the log.  When the
    history file holds the log in memory, the tree shows it and the file
    can be written, the same is true after every run of the transfer
    routine, of an upload and of a download, whatever the server and the
    user answer; loading the file then returns the log in memory. *)
Theorem transfer_keeps_store_in_sync
    (env : Env) (action remote_file : string) (st : State) :
  in_sync st ->
  writable st ->
  in_sync (final (_transfer_file env action remote_file st))
  /\ writable (final (_transfer_file env action remote_file st))
  /\ in_sync (final (upload_file env st))
  /\ in_sync (final (download_file env st))
  /\ result_of (load_history (final (_transfer_file env action remote_file st)))
     = Ok (json_of_history
             (transfer_history
                (self (final (_transfer_file env action remote_file st))))).
Proof.
  intros Hsync Hw.
  assert (Hrun : forall a r, in_sync (final (_transfer_file env a r st))).
  { intros a r. destruct Hsync as [Hf Hs].
    unfold in_sync, flushed, shown, writable in *.
    exec_with Hw Hw; rewrite ?Hf; unfold after_write; auto. }
  split; [apply Hrun|]. split; [|split; [|split]].
  - unfold writable in *. exec_with Hw Hw; reflexivity.
  - unfold upload_file, thread_start, mbind, M_bind, gets, emit. cbn.
    destruct (file_path (self st)) as [p|]; cbn; [|exact Hsync].
    destruct (negb (truthy p)); cbn; [exact Hsync | apply Hrun].
  - unfold download_file, thread_start, mbind, M_bind, gets, emit. cbn.
    destruct (negb (truthy (remote_file_entry (self st)))); cbn;
      [exact Hsync | apply Hrun].
  - apply load_flushed, Hrun.
Qed.

Lemma transfer_keeps_store_in_sync_witness :
  in_sync Sample.st_logged
  /\ in_sync (final (download_file Sample.env Sample.st_logged)).
Proof.
  assert (H : in_sync Sample.st_logged) by (split; reflexivity).
  split; [exact H|].
  destruct (transfer_keeps_store_in_sync Sample.env "download" "report.bin"
              Sample.st_logged H eq_refl) as (_ & _ & _ & Hd & _).
  exact Hd.
Defined.

(** ** Deleting rows *)

Lemma delete_entry_sublist (v : values) (h : list entry) :
  delete_entry v h `sublist_of` h /\
  (length h <= S (length (delete_entry v h)))%nat.
Proof.
  unfold delete_entry. destruct (first_match v h) as [i|] eqn:Hi.
  - split; [apply sublist_delete|].
    destruct (first_match_split _ _ _ Hi) as (l1 & e & l2 & -> & <- & _).
    rewrite delete_middle, !length_app. cbn. lia.
  - split; [reflexivity | lia].
Qed.

Lemma delete_entry_keeps (v : values) (h : list entry) (x : entry) :
  x ∈ h -> matches v x = false -> x ∈ delete_entry v h.
Proof.
  intros Hx Hm. unfold delete_entry.
  destruct (first_match v h) as [i|] eqn:Hi; [|exact Hx].
  destruct (first_match_split _ _ _ Hi) as (l1 & e & l2 & -> & <- & He & _).
  rewrite delete_middle.
  apply elem_of_app in Hx as [Hx|Hx]; [apply elem_of_app; by left|].
  apply elem_of_cons in Hx as [->|Hx]; [congruence|].
  apply elem_of_app. by right.
Qed.

(** The loop over the selected rows touches the log only. *)
Lemma delete_items_run (ids : list nat) : forall st,
  Forall (fun id => (id < length (history_tree (self st)))%nat) ids ->
  exists st',
    delete_items ids st = (Ok tt, st', []) /\
    world st' = world st /\
    history_tree (self st') = history_tree (self st) /\
    transfer_history (self st') `sublist_of` transfer_history (self st) /\
    (length (transfer_history (self st))
     <= length (transfer_history (self st')) + length ids)%nat /\
    (ids = [] -> st' = st).
Proof.
  induction ids as [|id ids IH]; intros st Hids.
  - exists st. cbn. repeat split; auto. lia.
  - apply Forall_cons in Hids as [Hid Hrest].
    destruct (lookup_lt_is_Some_2 _ _ Hid) as [v Hv].
    cbn [delete_items]. unfold mbind, M_bind, gets, getw, on_self.
    rewrite Hv. cbn.
    set (st1 := {| self := _; world := world st |}).
    destruct (IH st1 Hrest) as (st' & Hrun & Hw & Ht & Hsub & Hlen & _).
    rewrite Hrun. exists st'. cbn.
    destruct (delete_entry_sublist (item_values_of (world st) v)
                (transfer_history (self st))) as [Hs1 Hl1].
    repeat split; auto.
    + etrans; [exact Hsub|exact Hs1].
    + cbn in Hlen. lia.
    + discriminate.
Qed.

(** X2: a deletion only takes records away.  For every selection of
    rows of the tree and either answer to the question, the log that the
    deletion leaves is the old log with some records left out and the
    others in their order, and at most one record is missing per
    selected row; nothing changes and nothing is raised when the answer
    is no or nothing is selected; after a confirmed deletion the tree
    shows the new log and the file holds it when the file can be written
    and read; and when the file cannot be opened for writing the
    deletion raises after the log in memory was shortened, with the file
    and the tree as they were. *)
Theorem delete_selected_keeps_order
    (st : State) (selected_items : list nat) (confirm : bool) :
  Forall (fun id => (id < length (history_tree (self st)))%nat)
    selected_items ->
  transfer_history
    (self (final (delete_selected_history selected_items confirm st)))
  `sublist_of` transfer_history (self st)
  /\ (length (transfer_history (self st))
      <= length (transfer_history
                   (self (final (delete_selected_history selected_items
                                   confirm st))))
         + length selected_items)%nat
  /\ (confirm = false \/ selected_items = [] ->
      final (delete_selected_history selected_items confirm st) = st /\
      result_of (delete_selected_history selected_items confirm st) = Ok tt)
  /\ (writable st ->
      result_of (delete_selected_history selected_items confirm st) = Ok tt /\
      (confirm = true -> selected_items <> [] ->
       shown (final (delete_selected_history selected_items confirm st)) /\
       (disk (world st) <> Unreadable ->
        in_sync (final (delete_selected_history selected_items confirm st)))))
  /\ (forall e,
        disk_write (world st) = OpenRaises e ->
        confirm = true -> selected_items <> [] ->
        result_of (delete_selected_history selected_items confirm st)
        = Raise e /\
        disk (world (final (delete_selected_history selected_items confirm st)))
        = disk (world st) /\
        history_tree
          (self (final (delete_selected_history selected_items confirm st)))
        = history_tree (self st)).
Proof.
  intros Hids.
  destruct selected_items as [|id ids].
  { cbn. split; [reflexivity|]. split; [lia|].
    split; [split; reflexivity|].
    split; [intros _; split; [reflexivity|congruence]|].
    intros e _ _ Hne. congruence. }
  destruct confirm.
  - destruct (delete_items_run (id :: ids) st Hids)
      as (st' & Hrun & Hw & Ht & Hsub & Hlen & _).
    unfold writable.
    unfold delete_selected_history, save_history, update_history_display.
    unfold mbind, M_bind, emit, gets, getw, on_self, on_world, raise.
    rewrite Hrun. cbn. rewrite Hw.
    destruct (disk_write (world st)) as [|e0|e0 raw] eqn:Hdw; cbn.
    all: split; [exact Hsub|]; split; [exact Hlen|].
    all: split; [intros [Hc|Hc]; discriminate|].
    all: split; [intros Hwr; try discriminate Hwr|intros e He; try discriminate He].
    + split; [reflexivity|]. intros _ _. split; [reflexivity|].
      intros Hr. split; [|reflexivity].
      unfold flushed. cbn. rewrite Hw. by apply after_write_readable.
    + injection He as <-. intros _ _. rewrite Hw. auto.
  - unfold delete_selected_history, mbind, M_bind, emit, mret, M_ret. cbn.
    split; [reflexivity|]. split; [lia|].
    split; [split; reflexivity|].
    split; [intros _; split; [reflexivity|discriminate]|].
    intros e _ Hc. discriminate Hc.
Qed.

Lemma delete_selected_keeps_order_witness :
  Forall (fun id => (id < length (history_tree (self Sample.st_logged)))%nat)
    [0%nat; 2%nat]
  /\ in_sync (final (delete_selected_history [0%nat; 2%nat] true
                       Sample.st_logged))
  /\ transfer_history
       (self (final (delete_selected_history [0%nat; 2%nat] true
                       Sample.st_logged)))
     = [Sample.e2].
Proof.
  assert (H : Forall
                (fun id => (id < length (history_tree (self Sample.st_logged)))%nat)
                [0%nat; 2%nat]) by (repeat constructor).
  split; [exact H|].
  destruct (delete_selected_keeps_order Sample.st_logged [0%nat; 2%nat] true H)
    as (_ & _ & _ & Hs & _).
  destruct (Hs eq_refl) as (_ & Hsync).
  split; [|reflexivity].
  apply Hsync; [reflexivity | discriminate | discriminate].
Defined.

(** The status that the loop expects of a record, from the status cell
    of the row of [e]: the cell of any status but "success" reads as
    anything but the word of success. *)
Lemma expected_status (w : World) (e : entry) :
  reads_as_text w "موفق" ->
  (if str_eq "موفق"
        (convert_stringval w (row_status (row_of_entry e)))
   then "success" else "failed")
  = if String.eqb (status e) "success" then "success" else "failed".
Proof.
  intros Hok. unfold convert_stringval, row_of_entry, reads_as_text in *.
  cbn [row_status].
  destruct (String.eqb (status e) "success").
  - rewrite Hok. reflexivity.
  - destruct (cell_as_int w "ناموفق"); reflexivity.
Qed.

Lemma expected_status_foreign (w : World) (e : entry) :
  String.eqb (status e) "success" = false ->
  (if str_eq "موفق"
        (convert_stringval w (row_status (row_of_entry e)))
   then "success" else "failed")
  = "failed".
Proof.
  intros Hs. unfold convert_stringval, row_of_entry. cbn [row_status].
  rewrite Hs. destruct (cell_as_int w "ناموفق"); reflexivity.
Qed.

(** The test of the loop, on the row of a record the program wrote whose
    date and file name read as text. *)
Lemma matches_shown_row (w : World) (e x : entry) :
  reads_as_text w "موفق" ->
  reads_as_text w (date e) ->
  reads_as_text w (file e) ->
  written_status e ->
  matches (item_values_of w (row_of_entry e)) x = true <-> same_key x e.
Proof.
  intros Hok Hd Hf He. unfold matches, same_key.
  cbn [item_values_of v_date v_file v_status].
  rewrite expected_status by exact Hok.
  unfold convert_stringval. cbn [row_of_entry row_date row_file].
  unfold reads_as_text in Hd, Hf. rewrite Hd, Hf. cbn [str_eq].
  rewrite !andb_true_iff, !String.eqb_eq.
  destruct He as [He|He]; rewrite He.
  - vm_compute (String.eqb "success" "success"). tauto.
  - vm_compute (String.eqb "failed" "success"). tauto.
Qed.

(** X3: when the tree hands the row of a record back, the test of the
    deletion loop accepts that record if and only if its status is
    "success" or "failed" and neither its date nor its file name reads
    as an integer: a record of another status, or of a file called 123,
    is not found by its own row. *)
Theorem row_finds_own_entry (w : World) (e : entry) :
  reads_as_text w "موفق" ->
  matches (item_values_of w (row_of_entry e)) e = true
  <-> written_status e /\ reads_as_text w (date e) /\ reads_as_text w (file e).
Proof.
  intros Hok. split.
  - unfold matches, written_status, reads_as_text.
    cbn [item_values_of v_date v_file v_status].
    rewrite expected_status by exact Hok.
    unfold convert_stringval. cbn [row_of_entry row_date row_file].
    destruct (cell_as_int w (date e)); [discriminate|].
    destruct (cell_as_int w (file e));
      [cbn [str_eq]; rewrite andb_false_r; discriminate|].
    rewrite !andb_true_iff, !String.eqb_eq.
    destruct (String.eqb (status e) "success") eqn:Hs.
    + apply String.eqb_eq in Hs. tauto.
    + tauto.
  - intros (He & Hd & Hf).
    apply matches_shown_row; [assumption..|]. repeat split.
Qed.

Lemma row_finds_own_entry_witness :
  matches (item_values_of Sample.fresh_world (row_of_entry Sample.e2))
    Sample.e2 = true
  /\ ~ reads_as_text Sample.fresh_world (file Sample.numbered)
  /\ matches (item_values_of Sample.fresh_world (row_of_entry Sample.numbered))
       Sample.numbered = false.
Proof.
  pose proof (row_finds_own_entry Sample.fresh_world Sample.e2 eq_refl) as H2.
  pose proof (row_finds_own_entry Sample.fresh_world Sample.numbered eq_refl)
    as Hn.
  split; [apply H2; repeat split; by left|].
  split; [discriminate|].
  apply not_true_is_false. intros Hm.
  apply Hn in Hm as (_ & _ & Hf). discriminate Hf.
Defined.

(** X4: deleting a row of the tree.  When the tree shows the log and
    hands the cells of the row of a record back as text, a confirmed
    deletion of the row of a record with status "success" or "failed"
    removes exactly one record from the log in memory: the oldest one
    with the date, file and status of the record shown (the type is not
    compared), the other records staying in order; when the history
    file can be written the tree shows the shortened log and the file
    is rewritten with it. *)
Theorem delete_shown_row (st : State) (item_id : nat) (e : entry) :
  shown st ->
  rev (transfer_history (self st)) !! item_id = Some e ->
  written_status e ->
  reads_as_text (world st) "موفق" ->
  reads_as_text (world st) (date e) ->
  reads_as_text (world st) (file e) ->
  exists l1 e' l2,
    transfer_history (self st) = l1 ++ e' :: l2 /\
    same_key e' e /\
    Forall (fun x => ~ same_key x e) l1 /\
    transfer_history (self (final (delete_selected_history [item_id] true st)))
      = l1 ++ l2 /\
    (writable st ->
     result_of (delete_selected_history [item_id] true st) = Ok tt /\
     shown (final (delete_selected_history [item_id] true st)) /\
     disk (world (final (delete_selected_history [item_id] true st)))
     = after_write (disk (world st)) (Holds (json_of_history (l1 ++ l2)))).
Proof.
  intros Hshown Hrow He Hok Hd Hf.
  assert (Htree : history_tree (self st) !! item_id = Some (row_of_entry e)).
  { rewrite Hshown, list_lookup_fmap, Hrow. reflexivity. }
  assert (Hin : e ∈ transfer_history (self st)).
  { apply list_elem_of_lookup_2 in Hrow.
    apply list_elem_of_In, in_rev, list_elem_of_In in Hrow. exact Hrow. }
  destruct (first_match (item_values_of (world st) (row_of_entry e))
              (transfer_history (self st))) as [i|] eqn:Hfm.
  - destruct (first_match_split _ _ _ Hfm)
      as (l1 & e' & l2 & Hh & Hlen & He' & Hl1).
    exists l1, e', l2. split; [exact Hh|].
    split; [by apply (matches_shown_row (world st))|].
    split.
    { eapply Forall_impl; [exact Hl1|]. intros x Hx Hk.
      apply (matches_shown_row (world st) e x Hok Hd Hf He) in Hk.
      congruence. }
    unfold delete_selected_history, delete_items, writable.
    unfold_run. rewrite Htree. cbn. unfold delete_entry. rewrite Hfm.
    rewrite Hh, <- Hlen, delete_middle.
    destruct (disk_write (world st)); cbn.
    all: split; [reflexivity|]; intros Hw; try discriminate Hw.
    split; [reflexivity|]. split; reflexivity.
  - apply first_match_none in Hfm. rewrite Forall_forall in Hfm.
    apply Hfm in Hin.
    assert (matches (item_values_of (world st) (row_of_entry e)) e = true)
      by (apply matches_shown_row; [assumption..|repeat split]).
    congruence.
Qed.

Lemma delete_shown_row_witness :
  exists l1 e' l2,
    transfer_history (self Sample.st_logged) = l1 ++ e' :: l2 /\
    same_key e' Sample.e2 /\
    Forall (fun x => ~ same_key x Sample.e2) l1 /\
    transfer_history
      (self (final (delete_selected_history [1%nat] true Sample.st_logged)))
    = l1 ++ l2 /\
    (writable Sample.st_logged ->
     result_of (delete_selected_history [1%nat] true Sample.st_logged)
     = Ok tt /\
     shown (final (delete_selected_history [1%nat] true Sample.st_logged)) /\
     disk (world (final (delete_selected_history [1%nat] true
                           Sample.st_logged)))
     = after_write (disk (world Sample.st_logged))
         (Holds (json_of_history (l1 ++ l2)))).
Proof.
  apply (delete_shown_row Sample.st_logged 1 Sample.e2).
  - reflexivity.
  - reflexivity.
  - left. reflexivity.
  - reflexivity.
  - reflexivity.
  - reflexivity.
Defined.

(** ** What an attempt records *)

(** A download that passes the check of the connection fields, with a
    history file that can be written, ends without raising and appends
    one record. *)
Lemma download_records (env : Env) (st : State) (remote_file : string) :
  params_complete st ->
  writable st ->
  let s := if download_ok env remote_file then "success" else "failed" in
  let e := Entry (now env) "download" remote_file s in
  result_of (_transfer_file env "download" remote_file st) = Ok tt
  /\ transfer_history (self (final (_transfer_file env "download" remote_file st)))
     = transfer_history (self st) ++ [e]
  /\ List.filter is_append (events (_transfer_file env "download" remote_file st))
     = [HistoryAppend e].
Proof.
  intros Hp Hw. unfold params_complete in Hp. unfold writable in Hw. cbv zeta.
  unfold download_ok, first_failure.
  destruct (truthy (save_dialog env)) eqn:Hd.
  all: exec_with Hp Hd; rewrite ?List.filter_app, ?stream_no_append; cbn.
  all: split; [reflexivity|split; reflexivity].
Qed.

(** The same for an upload of the selected file. *)
Lemma upload_records (env : Env) (st : State) (remote_file p : string) :
  params_complete st ->
  writable st ->
  file_path (self st) = Some p ->
  let s := if upload_ok env p then "success" else "failed" in
  let e := Entry (now env) "upload" (basename p) s in
  result_of (_transfer_file env "upload" remote_file st) = Ok tt
  /\ transfer_history (self (final (_transfer_file env "upload" remote_file st)))
     = transfer_history (self st) ++ [e]
  /\ List.filter is_append (events (_transfer_file env "upload" remote_file st))
     = [HistoryAppend e].
Proof.
  intros Hp Hw Hf. unfold params_complete in Hp. unfold writable in Hw.
  cbv zeta. unfold upload_ok, first_failure.
  exec_with Hp Hf; rewrite ?List.filter_app, ?stream_no_append; cbn.
  all: split; [reflexivity|split; reflexivity].
Qed.

(** X5: every download that is started leaves exactly one record when
    the history file can be written.  With the connection fields filled
    and a remote name given, such a download ends without an exception
    leaving its thread and appends one record of type "download" for the
    remote name; its status is "success" when none of the calls on the
    session raises and a destination is chosen (the session opens, the
    remote file is there, the stream is not cut), and "failed" in every
    other case. *)
Theorem download_recorded_once (env : Env) (st : State) :
  params_complete st ->
  writable st ->
  truthy (remote_file_entry (self st)) = true ->
  let remote_file := remote_file_entry (self st) in
  let s := if download_ok env remote_file then "success" else "failed" in
  let e := Entry (now env) "download" remote_file s in
  transfer_history (self (final (download_file env st)))
  = transfer_history (self st) ++ [e]
  /\ List.filter is_append (events (download_file env st)) = [HistoryAppend e]
  /\ result_of (_transfer_file env "download" remote_file st) = Ok tt.
Proof.
  intros Hp Hw Hr. cbv zeta.
  destruct (download_records env st (remote_file_entry (self st)) Hp Hw)
    as (Hres & Hh & Hev).
  unfold download_file, thread_start, mbind, M_bind, gets. cbn.
  rewrite Hr. cbn. auto.
Qed.

Lemma download_recorded_once_witness :
  params_complete Sample.st
  /\ transfer_history (self (final (download_file Sample.env Sample.st)))
     = [Entry "2024-05-01 10:30" "download" "report.bin" "success"]
  /\ transfer_history (self (final (download_file Sample.env_drop Sample.st)))
     = [Entry "2024-05-01 10:30" "download" "report.bin" "failed"].
Proof.
  assert (Hp : params_complete Sample.st) by reflexivity.
  split; [exact Hp|]. split.
  - exact (proj1 (download_recorded_once Sample.env Sample.st Hp eq_refl
                    eq_refl)).
  - exact (proj1 (download_recorded_once Sample.env_drop Sample.st Hp eq_refl
                    eq_refl)).
Defined.

(** X6: every upload that is started leaves exactly one record when the
    history file can be written.  With the connection fields filled and
    a local file selected, such an upload ends without an exception
    leaving its thread and appends one record of type "upload" for the
    base name of the selected path; its status is "success" when none of
    the calls raises (the session opens, the local file is there, the
    stream is not cut), and "failed" in every other case. *)
Theorem upload_recorded_once (env : Env) (st : State) (p : string) :
  params_complete st ->
  writable st ->
  file_path (self st) = Some p ->
  truthy p = true ->
  let s := if upload_ok env p then "success" else "failed" in
  let e := Entry (now env) "upload" (basename p) s in
  transfer_history (self (final (upload_file env st)))
  = transfer_history (self st) ++ [e]
  /\ List.filter is_append (events (upload_file env st)) = [HistoryAppend e]
  /\ result_of (_transfer_file env "upload" "" st) = Ok tt.
Proof.
  intros Hp Hw Hf Ht. cbv zeta.
  destruct (upload_records env st "" p Hp Hw Hf) as (Hres & Hh & Hev).
  unfold upload_file, thread_start, mbind, M_bind, gets. cbn.
  rewrite Hf, Ht. cbn. auto.
Qed.

Lemma upload_recorded_once_witness :
  params_complete Sample.st
  /\ transfer_history (self (final (upload_file Sample.env Sample.st)))
     = [Entry "2024-05-01 10:30" "upload" "a.txt" "success"]
  /\ transfer_history (self (final (upload_file Sample.env_auth Sample.st)))
     = [Entry "2024-05-01 10:30" "upload" "a.txt" "failed"].
Proof.
  assert (Hp : params_complete Sample.st) by reflexivity.
  split; [exact Hp|]. split.
  - exact (proj1 (upload_recorded_once Sample.env Sample.st "/tmp/a.txt"
                    Hp eq_refl eq_refl eq_refl)).
  - exact (proj1 (upload_recorded_once Sample.env_auth Sample.st "/tmp/a.txt"
                    Hp eq_refl eq_refl eq_refl)).
Defined.

(** X7: a session that does not open.  When creating the transport,
    logging in or opening the SFTP channel raises, the run shows the
    error box of that exception, shows no save dialog, reads no file
    size, moves no byte and closes nothing, and a download records one
    Failed entry of the remote name. *)
Theorem connection_failure_reported
    (env : Env) (action remote_file : string) (st : State) (e : exn) :
  params_complete st ->
  first_failure env = Some e ->
  MsgTransferError action e
    ∈ events (_transfer_file env action remote_file st)
  /\ Forall (fun ev => after_connect ev = false)
       (events (_transfer_file env action remote_file st))
  /\ (action = "download" ->
      transfer_history (self (final (_transfer_file env action remote_file st)))
      = transfer_history (self st)
        ++ [Entry (now env) "download" remote_file "failed"]).
Proof.
  intros Hp Hfail. unfold params_complete in Hp.
  unfold first_failure in Hfail.
  split; [|split].
  - revert Hfail.
    exec_with Hp Hp; intros Hfail; try discriminate Hfail.
    all: injection Hfail as ->; in_goal.
  - revert Hfail.
    exec_with Hp Hp; intros Hfail; try discriminate Hfail.
    all: all_events.
  - intros ->. revert Hfail.
    exec_with Hp Hp; intros Hfail; try discriminate Hfail.
    all: reflexivity.
Qed.

Lemma connection_failure_reported_witness :
  first_failure Sample.env_auth = Some AuthenticationException
  /\ MsgTransferError "download" AuthenticationException
       ∈ events (_transfer_file Sample.env_auth "download" "report.bin"
                   Sample.st)
  /\ Forall (fun ev => after_connect ev = false)
       (events (_transfer_file Sample.env_auth "download" "report.bin"
                  Sample.st)).
Proof.
  split; [reflexivity|].
  destruct (connection_failure_reported Sample.env_auth "download"
              "report.bin" Sample.st AuthenticationException
              eq_refl eq_refl) as (Hbox & Hnone & _).
  split; [exact Hbox | exact Hnone].
Defined.

(** X8: a run creates at most one transport and one channel and closes
    none but its own.  After every run the counts of the transports and
    of the channels that the program has created and not closed are
    those before the run or one more, a channel is never left without
    its transport, a run that reaches [transport.close()] leaves both
    counts as it found them, and a run that created a transport and does
    not reach it leaves one transport more that it has not closed. *)
Theorem connections_opened_at_most_once
    (env : Env) (action remote_file : string) (st : State) :
  let before := world st in
  let after := world (final (_transfer_file env action remote_file st)) in
  (open_transports before <= open_transports after
   <= S (open_transports before))%nat
  /\ (open_channels before <= open_channels after
      <= S (open_channels before))%nat
  /\ (open_channels after - open_channels before
      <= open_transports after - open_transports before)%nat
  /\ (TransportClose ∈ events (_transfer_file env action remote_file st) ->
      open_transports after = open_transports before /\
      open_channels after = open_channels before)
  /\ (TransportClose ∉ events (_transfer_file env action remote_file st) ->
      params_complete st -> net_transport env = None ->
      open_transports after = S (open_transports before)).
Proof.
  cbv zeta. split; [|split; [|split; [|split]]].
  - exec; lia.
  - exec; lia.
  - exec; lia.
  - exec; intros H; in_trace H; split; reflexivity.
  - intros Hno Hp Hn. unfold params_complete in Hp. revert Hno.
    exec_with Hp Hn; intros Hno; try reflexivity.
    all: exfalso; apply Hno; in_goal.
Qed.

Lemma connections_opened_at_most_once_witness :
  open_transports
    (world (final (_transfer_file Sample.env "upload" "" Sample.st)))
  = 0%nat
  /\ open_transports
       (world (final (_transfer_file Sample.env_declined "download"
                        "report.bin" Sample.st)))
     = 1%nat.
Proof.
  destruct (connections_opened_at_most_once Sample.env "upload" "" Sample.st)
    as (_ & _ & _ & Hclosed & _).
  destruct (connections_opened_at_most_once Sample.env_declined "download"
              "report.bin" Sample.st) as (_ & _ & _ & _ & Hleft).
  split.
  - apply Hclosed. vm_compute. in_goal.
  - apply Hleft; [|reflexivity|reflexivity].
    let l := eval vm_compute in
      (events (_transfer_file Sample.env_declined "download" "report.bin"
                 Sample.st)) in
    change (TransportClose ∉ l).
    intros H. in_trace H.
Defined.

(** X12: the two directions stay apart.  No run of an upload shows the
    save dialog, asks for the size of a remote file or calls [sftp.get],
    and it leaves the local files as they are; no run of a download
    reads the size of a local file or calls [sftp.put]. *)
Theorem transfer_directions_apart
    (env : Env) (remote_file : string) (st : State) :
  Forall (fun ev => download_only ev = false)
    (events (_transfer_file env "upload" remote_file st))
  /\ local_files (world (final (_transfer_file env "upload" remote_file st)))
     = local_files (world st)
  /\ Forall (fun ev => upload_only ev = false)
       (events (_transfer_file env "download" remote_file st)).
Proof.
  split; [|split].
  - exec; all_events.
  - exec; reflexivity.
  - exec; all_events.
Qed.

(** ** The progress bar *)

(** X9: a sample within its total.  For a positive total and between
    zero and the total bytes transferred, [update_progress] raises
    nothing, causes no event, changes neither the log nor the world,
    sets the bar to a value between 0 and 100, to 100 when all bytes are
    transferred and to 0 when none is, and writes that value and the two
    counts to the label. *)
Theorem update_progress_in_range (transferred total : Z) (st : State) :
  0 <= transferred <= total -> 0 < total ->
  result_of (update_progress transferred total st) = Ok tt
  /\ events (update_progress transferred total st) = []
  /\ world (final (update_progress transferred total st)) = world st
  /\ transfer_history (self (final (update_progress transferred total st)))
     = transfer_history (self st)
  /\ (0 <= progress_bar (self (final (update_progress transferred total st)))
      <= 100)%Q
  /\ (transferred = total ->
      (progress_bar (self (final (update_progress transferred total st)))
       == 100)%Q)
  /\ (transferred = 0 ->
      (progress_bar (self (final (update_progress transferred total st)))
       == 0)%Q)
  /\ progress_label (self (final (update_progress transferred total st)))
     = Percent (progress_bar
                  (self (final (update_progress transferred total st))))
         transferred total.
Proof.
  intros Ht Hpos.
  destruct total as [|p|p]; try lia.
  unfold update_progress, truediv, mbind, M_bind, mret, M_ret, on_self. cbn.
  repeat split.
  - unfold Qle. cbn. lia.
  - unfold Qle. cbn. lia.
  - intros ->. unfold Qeq. cbn. lia.
  - intros ->. reflexivity.
Qed.

Lemma update_progress_in_range_witness :
  (progress_bar (self (final (update_progress 5 10 Sample.st))) <= 100)%Q
  /\ result_of (update_progress 5 10 Sample.st) = Ok tt.
Proof.
  destruct (update_progress_in_range 5 10 Sample.st ltac:(lia) ltac:(lia))
    as (Hres & _ & _ & _ & [_ Hle] & _).
  split; [exact Hle | exact Hres].
Defined.

(** ** Selecting the file to upload *)

Lemma select_file_core (env : Env) (answer : string) (w : Window) :
  file_path (self (core (selected env answer w))) = Some answer
  /\ server_entry (self (core (selected env answer w)))
     = server_entry (self (core w))
  /\ username_entry (self (core (selected env answer w)))
     = username_entry (self (core w))
  /\ password_entry (self (core (selected env answer w)))
     = password_entry (self (core w))
  /\ transfer_history (self (core (selected env answer w)))
     = transfer_history (self (core w))
  /\ world (core (selected env answer w)) = world (core w).
Proof.
  unfold selected, select_file, getsize, mbind, M_bind, mret, M_ret, emit, raise.
  destruct (truthy answer); cbn; [|repeat split].
  destruct (local_size env answer); cbn; repeat split.
Qed.

(** X10: the file dialog decides what the next upload sends.  Whatever
    it returns becomes the selected path and the log is not touched.
    When the dialog is cancelled, also after an earlier selection, the
    label says that nothing is selected and the next upload is rejected
    with an error box.  When a path is returned, [select_file] raises
    exactly when the size of the file cannot be read, and then leaves
    the label as it was; in either case the next upload, with the
    connection fields filled and a history file that can be written,
    records one entry for the base name of that path. *)
Theorem select_file_sets_upload_source
    (env env' : Env) (answer : string) (w : Window) :
  file_path (self (core (selected env answer w))) = Some answer
  /\ transfer_history (self (core (selected env answer w)))
     = transfer_history (self (core w))
  /\ (truthy answer = false ->
      fst (fst (select_file env answer w)) = Ok tt /\
      file_label (selected env answer w) = "فایلی انتخاب نشده" /\
      rejected (upload_file env' (core (selected env answer w)))
        (core (selected env answer w)))
  /\ (truthy answer = true ->
      (fst (fst (select_file env answer w)) = Raise (OSError answer)
       <-> local_size env answer = None) /\
      (local_size env answer = None ->
       file_label (selected env answer w) = file_label w) /\
      (params_complete (core w) -> writable (core w) ->
       transfer_history
         (self (final (upload_file env' (core (selected env answer w)))))
       = transfer_history (self (core w))
         ++ [Entry (now env') "upload" (basename answer)
               (if upload_ok env' answer then "success" else "failed")])).
Proof.
  destruct (select_file_core env answer w) as (Hf & Hs & Hu & Hpw & Hh & Hw).
  split; [exact Hf|]. split; [exact Hh|]. split.
  - intros Ht. split; [|split].
    + unfold select_file. rewrite Ht. reflexivity.
    + unfold selected, select_file. rewrite Ht. reflexivity.
    + unfold rejected, upload_file, mbind, M_bind, gets, emit.
      rewrite Hf, Ht. cbn. eauto.
  - intros Ht. split; [|split].
    + unfold select_file, getsize, mbind, M_bind, mret, M_ret, emit, raise.
      rewrite Ht. destruct (local_size env answer); cbn; split; congruence.
    + intros Hn.
      unfold selected, select_file, getsize, mbind, M_bind, mret, M_ret,
        emit, raise.
      rewrite Ht, Hn. reflexivity.
    + intros Hp Hwr.
      assert (Hp' : params_complete (core (selected env answer w))).
      { unfold params_complete in *. rewrite Hs, Hu, Hpw. exact Hp. }
      assert (Hwr' : writable (core (selected env answer w))).
      { unfold writable in *. rewrite Hw. exact Hwr. }
      destruct (upload_records env' _ "" answer Hp' Hwr' Hf) as (_ & Hrec & _).
      unfold upload_file, thread_start, mbind, M_bind, gets.
      rewrite Hf. cbn. rewrite Ht. cbn. rewrite Hrec, Hh. reflexivity.
Qed.

Lemma select_file_sets_upload_source_witness :
  rejected
    (upload_file Sample.env
       (core (selected Sample.env ""
                {| core := Sample.st; file_label := "" |})))
    (core (selected Sample.env "" {| core := Sample.st; file_label := "" |}))
  /\ transfer_history
       (self (final (upload_file Sample.env
                       (core (selected Sample.env "/tmp/big.iso"
                                Scene.window)))))
     = [Entry "2024-05-01 10:30" "upload" "big.iso" "success"].
Proof.
  destruct (select_file_sets_upload_source Sample.env Sample.env ""
              {| core := Sample.st; file_label := "" |})
    as (_ & _ & Hcancel & _).
  destruct (select_file_sets_upload_source Sample.env Sample.env
              "/tmp/big.iso" Scene.window) as (_ & _ & _ & Hpick).
  split.
  - exact (proj2 (proj2 (Hcancel eq_refl))).
  - exact (proj2 (proj2 (Hpick eq_refl)) eq_refl eq_refl).
Defined.

(** ** The name an upload goes by *)

Lemma has_slash_app (a b : string) :
  has_slash (a +:+ b) = has_slash a || has_slash b.
Proof.
  induction a as [|c a IH]; [reflexivity|].
  change (String c a +:+ b) with (String c (a +:+ b)).
  cbn [has_slash]. rewrite IH. apply orb_assoc.
Qed.

Lemma append_snoc (acc : string) (c : ascii) (r : string) :
  (acc +:+ String c "") +:+ r = acc +:+ String c r.
Proof.
  induction acc as [|a acc IH]; [reflexivity|].
  change ((String a acc +:+ String c "") +:+ r)
    with (String a ((acc +:+ String c "") +:+ r)).
  rewrite IH. reflexivity.
Qed.

Lemma basename_from_no_slash (p : string) : forall acc,
  has_slash acc = false -> has_slash (basename_from acc p) = false.
Proof.
  induction p as [|c p IH]; intros acc Hacc; [exact Hacc|].
  cbn. destruct (Ascii.eqb c "/") eqn:Hc.
  - apply IH. reflexivity.
  - apply IH. rewrite has_slash_app, Hacc. cbn. rewrite Hc. reflexivity.
Qed.

Lemma basename_from_plain (n : string) : forall acc,
  has_slash n = false -> basename_from acc n = acc +:+ n.
Proof.
  induction n as [|c n IH]; intros acc Hn.
  - cbn. induction acc as [|a acc IHa]; [reflexivity|].
    change (String a acc +:+ "") with (String a (acc +:+ "")).
    rewrite <- IHa. reflexivity.
  - cbn in Hn. apply orb_false_elim in Hn as [Hc Hn].
    cbn. rewrite Hc. rewrite IH by exact Hn. apply append_snoc.
Qed.

Lemma basename_from_join (d n : string) : forall acc,
  has_slash n = false -> basename_from acc (d +:+ "/" +:+ n) = n.
Proof.
  induction d as [|c d IH]; intros acc Hn.
  - change ("" +:+ "/" +:+ n) with (String "/" n).
    cbn. apply (basename_from_plain n ""). exact Hn.
  - change (String c d +:+ "/" +:+ n) with (String c (d +:+ "/" +:+ n)).
    cbn. destruct (Ascii.eqb c "/"); apply IH; exact Hn.
Qed.

(** X11: an upload goes by the base name of the selected path.  The
    base name holds no slash; it is what follows the last slash of the
    path, and the path itself when that holds none.  In every run of an
    upload each call of [sftp.put] sends the selected path to that name,
    and each record appended names it. *)
Theorem upload_goes_by_base_name
    (env : Env) (st : State) (remote_file p : string) :
  file_path (self st) = Some p ->
  has_slash (basename p) = false
  /\ Forall (upload_names p)
       (events (_transfer_file env "upload" remote_file st))
  /\ (forall d n,
        p = d +:+ "/" +:+ n -> has_slash n = false -> basename p = n)
  /\ (has_slash p = false -> basename p = p).
Proof.
  intros Hf. split; [|split; [|split]].
  - apply basename_from_no_slash. reflexivity.
  - unfold upload_names. exec_with Hf Hf.
    all: repeat first
      [ apply Forall_nil_2
      | apply Forall_cons_2; [cbn; auto|]
      | apply Forall_app_2; [apply stream_events_Forall; intros; exact I|] ].
  - intros d n -> Hn. apply basename_from_join. exact Hn.
  - intros Hp. apply (basename_from_plain p ""). exact Hp.
Qed.

Lemma upload_goes_by_base_name_witness :
  has_slash (basename "/tmp/a.txt") = false
  /\ basename "/tmp/a.txt" = "a.txt"
  /\ Forall (upload_names "/tmp/a.txt")
       (events (_transfer_file Sample.env "upload" "" Sample.st)).
Proof.
  destruct (upload_goes_by_base_name Sample.env Sample.st "" "/tmp/a.txt"
              eq_refl) as (Hno & Hev & Hjoin & _).
  split; [exact Hno|]. split; [|exact Hev].
  exact (Hjoin "/tmp" "a.txt" eq_refl eq_refl).
Defined.

(** ** What the user sees *)

Lemma stream_no_box c total i k :
  List.filter is_box (stream_events c total i k) = [].
Proof. apply stream_filter_none; reflexivity. Qed.

(** X13: the newest record is the first row.  [update_history_display]
    fills the tree with one row per record of the log, row [i] showing
    the record [i] places from the end.  After [add_to_history] with a
    history file that can be written the tree is the row of the new
    record followed by the rows of the older records, newest first, and
    these are the rows that were there when the tree showed the log;
    when the file cannot be written the record is in the log but the
    tree is not refilled. *)
Theorem newest_record_on_top
    (env : Env) (st : State) (transfer_type filename outcome : string) :
  let e := Entry (now env) transfer_type filename outcome in
  let h := transfer_history (self st) in
  let added := final (add_to_history env transfer_type filename outcome st) in
  let redrawn := final (update_history_display st) in
  (length (history_tree (self redrawn)) = length h /\
   forall i,
     (i < length h)%nat ->
     history_tree (self redrawn) !! i
     = row_of_entry <$> h !! (length h - S i)%nat)
  /\ (writable st ->
      history_tree (self added)
      = row_of_entry e :: map row_of_entry (rev h) /\
      (shown st ->
       history_tree (self added) = row_of_entry e :: history_tree (self st)))
  /\ (~ writable st ->
      transfer_history (self added) = h ++ [e] /\
      history_tree (self added) = history_tree (self st)).
Proof.
  cbv zeta. split; [|split].
  - unfold_run. split.
    + rewrite length_map, length_rev. reflexivity.
    + intros i Hi. rewrite list_lookup_fmap. f_equal.
      rewrite rev_alt. apply reverse_lookup. exact Hi.
  - intros Hw. unfold writable in Hw. unfold_run. rewrite Hw. cbn.
    rewrite rev_unit. cbn. split; [reflexivity|].
    intros Hs. unfold shown in Hs. rewrite Hs. reflexivity.
  - unfold writable. intros Hw. unfold_run.
    destruct (disk_write (world st)); [congruence|..]; cbn; auto.
Qed.

Lemma newest_record_on_top_witness :
  history_tree
    (self (final (add_to_history Sample.env "download" "report.bin"
                    "success" Sample.st_logged)))
  = row_of_entry
      (Entry "2024-05-01 10:30" "download" "report.bin" "success")
    :: history_tree (self Sample.st_logged)
  /\ history_tree
       (self (final (add_to_history Sample.env "download" "report.bin"
                       "success" Sample.st_read_only)))
     = history_tree (self Sample.st_logged).
Proof.
  destruct (newest_record_on_top Sample.env Sample.st_logged
              "download" "report.bin" "success") as (_ & Hw & _).
  destruct (newest_record_on_top Sample.env Sample.st_read_only
              "download" "report.bin" "success") as (_ & _ & Hr).
  split.
  - apply (Hw eq_refl). reflexivity.
  - apply Hr. discriminate.
Defined.

(** X14: one message box at most.  Every run of the transfer routine
    shows at most one message box, and a download with the connection
    fields filled and a history file that can be written shows none
    exactly when the session opens and the save dialog is closed without
    a destination: the declined download is the one attempt that ends
    without a box. *)
Theorem at_most_one_message_box
    (env : Env) (action remote_file : string) (st : State) :
  (length (List.filter is_box
             (events (_transfer_file env action remote_file st))) <= 1)%nat
  /\ (params_complete st -> writable st ->
      List.filter is_box (events (_transfer_file env "download" remote_file st))
      = []
      <-> first_failure env = None /\ truthy (save_dialog env) = false).
Proof.
  split.
  - exec; rewrite ?List.filter_app, ?stream_no_box; cbn; lia.
  - intros Hp Hw. unfold params_complete in Hp. unfold writable in Hw.
    unfold first_failure.
    destruct (truthy (save_dialog env)) eqn:Hd.
    all: exec_with Hp Hd; rewrite ?List.filter_app, ?stream_no_box; cbn.
    all: split;
      [ intros H; try discriminate H; auto
      | intros [H1 H2]; try discriminate H1; try discriminate H2; auto ].
Qed.

Lemma at_most_one_message_box_witness :
  params_complete Sample.st
  /\ List.filter is_box
       (events (_transfer_file Sample.env_declined "download" "report.bin"
                  Sample.st))
     = []
  /\ (length (List.filter is_box
                (events (_transfer_file Sample.env_declined "download"
                           "report.bin" Sample.st_unwritable))) <= 1)%nat.
Proof.
  assert (Hp : params_complete Sample.st) by reflexivity.
  split; [exact Hp|].
  destruct (at_most_one_message_box Sample.env_declined "download"
              "report.bin" Sample.st) as (_ & Hsilent).
  destruct (at_most_one_message_box Sample.env_declined "download"
              "report.bin" Sample.st_unwritable) as (Hone & _).
  split; [|exact Hone].
  apply (Hsilent Hp eq_refl). split; reflexivity.
Defined.

(** ** Records of a foreign status *)

(** X15: a record of a foreign status outlives its row.  A record whose
    status is neither "success" nor "failed" (one that only a history
    file written by hand can hold) is shown as failed, and the test of
    the deletion loop rejects it for its own row, however the tree hands
    the cells back: a confirmed deletion of that row leaves the record
    in the log, and raises nothing when the history file can be
    written. *)
Theorem foreign_status_row_cannot_delete_its_record
    (st : State) (item_id : nat) (e : entry) :
  ~ written_status e ->
  e ∈ transfer_history (self st) ->
  history_tree (self st) !! item_id = Some (row_of_entry e) ->
  matches (item_values_of (world st) (row_of_entry e)) e = false
  /\ e ∈ transfer_history
           (self (final (delete_selected_history [item_id] true st)))
  /\ (writable st ->
      result_of (delete_selected_history [item_id] true st) = Ok tt).
Proof.
  intros Hodd Hin Hrow.
  assert (Hm : matches (item_values_of (world st) (row_of_entry e)) e = false).
  { apply not_true_is_false. intros Hm.
    apply Hodd. unfold matches, written_status in *.
    cbn [item_values_of v_date v_file v_status] in Hm.
    rewrite !andb_true_iff, !String.eqb_eq in Hm.
    destruct Hm as (_ & Hs).
    destruct (String.eqb (status e) "success") eqn:Hse.
    - apply String.eqb_eq in Hse. auto.
    - rewrite expected_status_foreign in Hs by exact Hse. auto. }
  split; [exact Hm|].
  unfold delete_selected_history, delete_items, writable. unfold_run.
  rewrite Hrow. cbn.
  destruct (disk_write (world st)); cbn.
  all: split; [by apply delete_entry_keeps|].
  all: intros Hw; first [reflexivity | discriminate Hw].
Qed.

Lemma foreign_status_row_cannot_delete_its_record_witness :
  Scene.odd ∈ transfer_history (self Scene.st_odd)
  /\ Scene.odd
       ∈ transfer_history
           (self (final (delete_selected_history [0%nat] true Scene.st_odd))).
Proof.
  assert (Hin : Scene.odd ∈ transfer_history (self Scene.st_odd))
    by (apply list_elem_of_further, list_elem_of_here).
  split; [exact Hin|].
  destruct (foreign_status_row_cannot_delete_its_record Scene.st_odd 0
              Scene.odd) as (_ & Hstay & _).
  - intros [H|H]; discriminate H.
  - exact Hin.
  - reflexivity.
  - exact Hstay.
Defined.

(** In the sample log the row of the foreign record removes the Failed
    record of the same minute and file instead. *)
Example foreign_row_removes_twin :
  transfer_history
    (self (final (delete_selected_history [0%nat] true Scene.st_odd)))
  = [Scene.odd].
Proof. reflexivity. Qed.

(** ** A history file that cannot be written *)



(** ** Starting over a history file *)

Lemma loaded_empty (w : World) :
  disk w = Absent \/ disk w = Unreadable \/ (exists raw, disk w = Corrupt raw) ->
  loaded w = Some [] /\ history_tree ∘ self <$> startup w = Some [].
Proof.
  intros [H|[H|[raw H]]]; unfold loaded, startup; unfold_run; rewrite H;
    split; reflexivity.
Qed.


(** X18: a dump that fails loses the stored history.  [save_history]
    opens the file for writing, which empties it, before it dumps the
    log: when the dump raises, [add_to_history] raises, the file that
    could be read before is left with the part that was written, and a
    new object starts with the empty log whatever the file held; the log
    in memory has the new record. *)
Theorem failed_dump_loses_history
    (env : Env) (st : State) (transfer_type filename outcome : string)
    (e : exn) (raw : string) :
  disk_write (world st) = DumpRaises e raw ->
  disk (world st) <> Unreadable ->
  let run := add_to_history env transfer_type filename outcome st in
  result_of run = Raise e
  /\ disk (world (final run)) = Corrupt raw
  /\ loaded (world (final run)) = Some []
  /\ transfer_history (self (final run))
     = transfer_history (self st)
       ++ [Entry (now env) transfer_type filename outcome].
Proof.
  intros Hw Hr. cbv zeta.
  assert (Hd : disk (world (final (add_to_history env transfer_type filename
                                     outcome st))) = Corrupt raw).
  { unfold_run. rewrite Hw. cbn. by apply after_write_readable. }
  split; [unfold_run; rewrite Hw; reflexivity|].
  split; [exact Hd|]. split.
  - apply loaded_empty. right. right. exists raw. exact Hd.
  - unfold_run. rewrite Hw. reflexivity.
Qed.

Lemma failed_dump_loses_history_witness :
  loaded (world Sample.st_logged) = Some [Sample.e1; Sample.e2; Sample.e3]
  /\ loaded
       (world (final (add_to_history Sample.env "upload" "b.txt" "success"
                        Sample.st_disk_full)))
     = Some [].
Proof.
  split; [reflexivity|].
  destruct (failed_dump_loses_history Sample.env Sample.st_disk_full
              "upload" "b.txt" "success" (OSError "No space left on device")
              "" eq_refl) as (_ & _ & Hl & _).
  - discriminate.
  - exact Hl.
Defined.
